(** * recaptcha-go: a shallow embedding of [recaptcha.go] and its properties

    The package verifies a reCAPTCHA challenge token against the remote
    verification endpoint and then applies the caller's acceptance policy to
    the decoded answer.  Everything lives in one Go function, [confirm]; the
    two public entry points [Verify] and [VerifyWithOptions] only build the
    request and call it.

    Modelling conventions
    - Go [string] is [string]; a [[]string] that may be [nil] is
      [option (list string)] ([None] is the nil slice, [Some []] is the empty,
      non-nil slice that [encoding/json] produces for a JSON [[]]).
    - [float32] and [float64] are IEEE-754 values, [spec_float] of the
      standard library, with the comparison and arithmetic of [SpecFloat]
      at precision 24/128 and 53/1024.
    - [time.Duration] is a count of nanoseconds ([int64], here [Z]);
      [VERSION] is an [int8], here [Z].
    - the collaborators (HTTP client, clock) are values held by the engine;
      every call made on them is recorded in an event trace, so that what the
      code does to the outside world can be stated.
    - Go's early [return] and run-time panics are the [Return] and [Panic]
      outcomes of a small statement monad. *)

From Stdlib Require Import ZArith String Ascii List Bool Lia DecimalString.
From Stdlib Require Import Floats.SpecFloat.
Import ListNotations.

Local Open Scope string_scope.
Local Open Scope Z_scope.

(** ** Go values used by the package *)

Module GoFloat.

Definition float32 := spec_float.
Definition float64 := spec_float.

(** Conversion of an integer to [float64] (round to nearest even). *)
Definition float64_of_int (n : Z) : float64 := binary_normalize 53 1024 n 0 false.

(** The [float32] nearest to the decimal constant [n/d], as the Go compiler
    and [strconv.ParseFloat(s, 32)] round a literal; [n] and [d] are small
    enough to be exact in [float32]. *)
Definition float32_of_ratio (n d : Z) : float32 :=
  SFdiv 24 128 (binary_normalize 24 128 n 0 false) (binary_normalize 24 128 d 0 false).

(** Go's [x == y], [x != y], [x > y] on floats. *)
Definition eq (x y : spec_float) : bool := SFeqb x y.
Definition neq (x y : spec_float) : bool := negb (SFeqb x y).
Definition gt (x y : spec_float) : bool := SFltb y x.

(** The zero value of a float field. *)
Definition zero : spec_float := S754_zero false.

(** A [float32] proper: a representation that fits the format. *)
Definition valid32 (x : spec_float) : bool := valid_binary 24 128 x.

(** Neither an infinity nor a NaN; a JSON number decodes to such a value. *)
Definition is_finite (x : spec_float) : bool :=
  match x with
  | S754_zero _ | S754_finite _ _ _ => true
  | _ => false
  end.

(** The number a finite [float32] stands for, in units of [2^-149] (the
    smallest positive [float32]), which makes it an integer. *)
Definition scaled32 (x : spec_float) : Z :=
  match x with
  | S754_finite s m e => cond_Zopp s (Zpos m * 2 ^ (e + 149))
  | _ => 0
  end.

(** *** [%f] of package [fmt]

    [fmt.Sprintf("%f", x)] prints the exact value of [x] rounded to six
    decimals, ties to even ([strconv.FormatFloat(x, 'f', 6, bits)]), with a
    leading [-] taken from the sign bit, and [NaN], [+Inf], [-Inf] for the
    special values. *)

Definition round_half_even (n d : Z) : Z :=
  let q := n / d in
  let r := n mod d in
  match 2 * r ?= d with
  | Lt => q
  | Gt => q + 1
  | Eq => if Z.even q then q else q + 1
  end.

(** [|m * 2^e| * 10^6], rounded to an integer. *)
Definition micros (m : positive) (e : Z) : Z :=
  match e with
  | Zneg k => round_half_even (Zpos m * 10 ^ 6) (2 ^ Zpos k)
  | _ => Zpos m * 2 ^ e * 10 ^ 6
  end.

Definition decimal (n : Z) : string := NilZero.string_of_uint (N.to_uint (Z.to_N n)).

Fixpoint zeros (n : nat) : string :=
  match n with
  | O => ""
  | S n' => "0" ++ zeros n'
  end.

Definition pad6 (n : Z) : string :=
  let s := decimal n in
  zeros (6 - String.length s) ++ s.

Definition fixed6 (n : Z) : string :=
  decimal (n / 10 ^ 6) ++ "." ++ pad6 (n mod 10 ^ 6).

Definition fmt_f (x : spec_float) : string :=
  match x with
  | S754_nan => "NaN"
  | S754_infinity s => if s then "-Inf" else "+Inf"
  | S754_zero s => (if s then "-" else "") ++ fixed6 0
  | S754_finite s m e => (if s then "-" else "") ++ fixed6 (micros m e)
  end.

End GoFloat.

Module GoTime.
Import GoFloat.

(** [time.Time]: an instant, nanoseconds since the epoch. *)
Definition Time := Z.

(** [time.Duration]: nanoseconds. *)
Definition Duration := Z.

Definition Second : Duration := 1000000000.

(** [func (d Duration) Seconds() float64]:
    [sec := d / Second; nsec := d % Second;
     return float64(sec) + float64(nsec)/1e9]
    with Go's truncating integer division. *)
Definition Seconds (d : Duration) : float64 :=
  let sec := Z.quot d Second in
  let nsec := Z.rem d Second in
  SFadd 53 1024 (float64_of_int sec)
        (SFdiv 53 1024 (float64_of_int nsec) (float64_of_int 1000000000)).

End GoTime.

Module GoFmt.

(** [strings.Join]. *)
Fixpoint join (sep : string) (l : list string) : string :=
  match l with
  | [] => ""
  | [x] => x
  | x :: rest => x ++ sep ++ join sep rest
  end.

(** [%v] of a [[]string]: the elements between brackets, separated by one
    space; a nil slice prints as an empty one. *)
Definition fmt_v (l : option (list string)) : string :=
  match l with
  | None => "[]"
  | Some xs => "[" ++ join " " xs ++ "]"
  end.

End GoFmt.

(** ** Statements, effects and outcomes

    A Go function body is a computation that records the calls it makes on
    its collaborators and ends in one of three ways: it panics, it executes
    [return v], or it runs to its end and hands a value to what follows. *)

Inductive event : Type :=
| EvPostForm (url : string) (formValues : list (string * list string))
| EvReadAll
| EvClose
| EvSince (t : GoTime.Time).

Inductive step (R A : Type) : Type :=
| Panic
| Return (v : R)
| Next (a : A).

Arguments Panic {R A}.
Arguments Return {R A} v.
Arguments Next {R A} a.

Definition Stmt (R A : Type) : Type := (list event * step R A)%type.

Definition pure {R A} (a : A) : Stmt R A := ([], Next a).

Definition return_ {R A} (v : R) : Stmt R A := ([], Return v).

Definition panic {R A} : Stmt R A := ([], Panic).

Definition emit {R} (e : event) : Stmt R unit := ([e], Next tt).

Definition bind {R A B} (s : Stmt R A) (k : A -> Stmt R B) : Stmt R B :=
  match s with
  | (t, Next a) => let (t', o) := k a in ((t ++ t')%list, o)
  | (t, Return v) => (t, Return v)
  | (t, Panic) => (t, Panic)
  end.

(** [defer f(); body]: the deferred call runs when the body is left, on a
    return as on a panic. *)
Definition defer {R A} (e : event) (body : Stmt R A) : Stmt R A :=
  ((fst body ++ [e])%list, snd body).

(** [if c { body }] *)
Definition when {R} (c : bool) (body : Stmt R unit) : Stmt R unit :=
  if c then body else pure tt.

Declare Scope stmt_scope.
Delimit Scope stmt_scope with stmt.
Notation "x <- s ;; k" := (bind s (fun x => k))
  (at level 61, s at next level, right associativity) : stmt_scope.
Notation "s ;; k" := (bind s (fun _ => k))
  (at level 61, right associativity) : stmt_scope.

(** What the caller of a function observes. *)
Definition trace {R A} (s : Stmt R A) : list event := fst s.

Inductive outcome (R : Type) : Type :=
| Panicked
| Returned (v : R).

Arguments Panicked {R}.
Arguments Returned {R} v.

(** A body of type [Stmt R Empty_set] cannot run off its end. *)
Definition run {R} (s : Stmt R Empty_set) : outcome R :=
  match snd s with
  | Panic => Panicked
  | Return v => Returned v
  | Next a => match a with end
  end.

(** ** The data of the package *)

Import GoFloat GoTime GoFmt.

Definition reCAPTCHALink : string := "https://www.google.com/recaptcha/api/siteverify".

(** [type VERSION int8] *)
Definition VERSION := Z.
Definition V2 : VERSION := 0.
Definition V3 : VERSION := 1.

(** [DefaultThreshold float32 = 0.5], that is [2^23 * 2^-24]. *)
Definition DefaultThreshold : float32 := S754_finite false 8388608 (-24).

Module reCHAPTCHARequest.
Record t : Type := mk {
  Secret : string;
  Response : string;
  RemoteIP : string
}.
End reCHAPTCHARequest.

Module reCHAPTCHAResponse.
Record t : Type := mk {
  Success : bool;
  ChallengeTS : Time;
  Hostname : string;
  ApkPackageName : string;
  Action : string;
  Score : float32;
  ErrorCodes : option (list string)
}.
End reCHAPTCHAResponse.

(** [url.Values] *)
Definition Values := list (string * list string).

(** What [client.PostForm] followed by [ioutil.ReadAll(response.Body)] can
    give: [PostForm] returns an error (its text is what [%s] prints; [confirm]
    looks at the error first, so a response returned along with it does not
    count), or a response whose body reads to the end or fails with an
    error. *)
Inductive Body : Type :=
| ReadFails (err : string)
| ReadsAll (bytes : string).

(** [type netClient interface { PostForm(url, formValues) (resp, err) }] *)
Record netClient : Type := {
  PostForm : string -> Values -> string + Body
}.

(** [type clock interface { Since(t time.Time) time.Duration }] *)
Record clock : Type := {
  Since : Time -> Duration
}.

Module ReCAPTCHA.
Record t : Type := mk {
  client : option netClient;
  Secret : string;
  ReCAPTCHALink : string;
  Version : VERSION;
  Timeout : Duration;
  horloge : option clock
}.

(** [ReCAPTCHA{}] *)
Definition zero : t := mk None "" "" 0 0 None.
End ReCAPTCHA.

Module Error.
Record t : Type := mk {
  msg : string;
  ErrorCodes : option (list string);
  RequestError : bool;
  ResponseBody : string
}.
End Error.

(** Go's [error] interface, restricted to the values this package returns:
    [nil], an error made by [fmt.Errorf], or an [*Error]. *)
Inductive error : Type :=
| nil
| errorString (s : string)
| ptrError (e : Error.t).

Module VerifyOption.
Record t : Type := mk {
  Threshold : float32;
  Action : string;
  Hostname : string;
  ApkPackageName : string;
  ResponseTime : Duration;
  RemoteIP : string
}.

(** [VerifyOption{}] *)
Definition zero : t := mk GoFloat.zero "" "" "" 0 "".
End VerifyOption.

(** ** Calls on the collaborators

    A method call on a nil interface value panics; otherwise the call is
    recorded and its answer handed on. *)

Definition call_PostForm {R} (c : option netClient) (url : string) (formValues : Values)
  : Stmt R (string + Body) :=
  match c with
  | None => panic
  | Some c => (emit (EvPostForm url formValues) ;; pure (PostForm c url formValues))%stmt
  end.

(** [ioutil.ReadAll(response.Body)] *)
Definition ReadAll {R} (b : Body) : Stmt R (string + string) :=
  (emit EvReadAll ;;
   pure match b with
        | ReadFails err => inl err
        | ReadsAll bytes => inr bytes
        end)%stmt.

Definition call_Since {R} (h : option clock) (t : Time) : Stmt R Duration :=
  match h with
  | None => panic
  | Some h => (emit (EvSince t) ;; pure (Since h t))%stmt
  end.

Definition is_nil {A} (s : option (list A)) : bool :=
  match s with
  | None => true
  | Some _ => false
  end.

(** ** The functions of [recaptcha.go] *)

Section Package.

(** [encoding/json.Unmarshal] into a [reCHAPTCHAResponse]: the decoder's
    error text, or the decoded struct. *)
Variable json_Unmarshal : string -> string + reCHAPTCHAResponse.t.

(** [&http.Client{Timeout: timeout}], the client of [net/http]. *)
Variable http_Client : Duration -> netClient.

(** [time.Since], the wall clock. *)
Variable time_Since : Time -> Duration.

Definition realClock : clock := {| Since := time_Since |}.

Definition NewReCAPTCHA (ReCAPTCHASecret : string) (version : VERSION) (timeout : Duration)
  : Stmt (ReCAPTCHA.t * error) Empty_set :=
  (when (String.eqb ReCAPTCHASecret "")
     (return_ (ReCAPTCHA.zero, errorString "recaptcha secret cannot be blank")) ;;
   return_ ({| ReCAPTCHA.client := Some (http_Client timeout);
               ReCAPTCHA.horloge := Some realClock;
               ReCAPTCHA.Secret := ReCAPTCHASecret;
               ReCAPTCHA.ReCAPTCHALink := reCAPTCHALink;
               ReCAPTCHA.Timeout := timeout;
               ReCAPTCHA.Version := version |}, nil))%stmt.

Definition confirm (r : ReCAPTCHA.t) (recaptcha : reCHAPTCHARequest.t)
           (options : VerifyOption.t) : Stmt error Empty_set :=
  let formValues : Values :=
    if negb (String.eqb recaptcha.(reCHAPTCHARequest.RemoteIP) "")
    then [("secret", [recaptcha.(reCHAPTCHARequest.Secret)]);
          ("remoteip", [recaptcha.(reCHAPTCHARequest.RemoteIP)]);
          ("response", [recaptcha.(reCHAPTCHARequest.Response)])]
    else [("secret", [recaptcha.(reCHAPTCHARequest.Secret)]);
          ("response", [recaptcha.(reCHAPTCHARequest.Response)])] in
  (response <- call_PostForm r.(ReCAPTCHA.client) r.(ReCAPTCHA.ReCAPTCHALink) formValues ;;
   match response with
   | inl err =>
     return_ (ptrError {| Error.msg := "error posting to recaptcha endpoint: '" ++ err ++ "'";
                          Error.ErrorCodes := None;
                          Error.RequestError := true;
                          Error.ResponseBody := "" |})
   | inr body =>
     defer EvClose
       (read <- ReadAll body ;;
        match read with
        | inl err =>
          return_ (ptrError {| Error.msg := "couldn't read response body: '" ++ err ++ "'";
                               Error.ErrorCodes := None;
                               Error.RequestError := true;
                               Error.ResponseBody := "" |})
        | inr resultBody =>
          match json_Unmarshal resultBody with
          | inl err =>
            return_ (ptrError {| Error.msg := "invalid response body json: '" ++ err ++ "'";
                                 Error.ErrorCodes := None;
                                 Error.RequestError := true;
                                 Error.ResponseBody := resultBody |})
          | inr result =>
            when (Z.eqb r.(ReCAPTCHA.Version) V3)
              (when (negb (String.eqb options.(VerifyOption.Action) "")
                     && negb (String.eqb options.(VerifyOption.Action)
                                         result.(reCHAPTCHAResponse.Action)))
                 (return_ (ptrError
                    {| Error.msg := "invalid response action '"
                                    ++ result.(reCHAPTCHAResponse.Action)
                                    ++ "', while expecting '"
                                    ++ options.(VerifyOption.Action) ++ "'";
                       Error.ErrorCodes := None;
                       Error.RequestError := false;
                       Error.ResponseBody := resultBody |})) ;;
               when (neq options.(VerifyOption.Threshold) GoFloat.zero
                     && gt options.(VerifyOption.Threshold) result.(reCHAPTCHAResponse.Score))
                 (return_ (ptrError
                    {| Error.msg := "received score '"
                                    ++ fmt_f result.(reCHAPTCHAResponse.Score)
                                    ++ "', while expecting minimum '"
                                    ++ fmt_f options.(VerifyOption.Threshold) ++ "'";
                       Error.ErrorCodes := None;
                       Error.RequestError := false;
                       Error.ResponseBody := resultBody |})) ;;
               when (eq options.(VerifyOption.Threshold) GoFloat.zero
                     && gt DefaultThreshold result.(reCHAPTCHAResponse.Score))
                 (return_ (ptrError
                    {| Error.msg := "received score '"
                                    ++ fmt_f result.(reCHAPTCHAResponse.Score)
                                    ++ "', while expecting minimum '"
                                    ++ fmt_f DefaultThreshold ++ "'";
                       Error.ErrorCodes := None;
                       Error.RequestError := false;
                       Error.ResponseBody := resultBody |}))) ;;
            when (negb (is_nil result.(reCHAPTCHAResponse.ErrorCodes)))
              (return_ (ptrError
                 {| Error.msg := "remote error codes: "
                                 ++ fmt_v result.(reCHAPTCHAResponse.ErrorCodes);
                    Error.ErrorCodes := result.(reCHAPTCHAResponse.ErrorCodes);
                    Error.RequestError := false;
                    Error.ResponseBody := resultBody |})) ;;
            (if negb result.(reCHAPTCHAResponse.Success)
                && negb (String.eqb recaptcha.(reCHAPTCHARequest.RemoteIP) "")
             then
               return_ (ptrError
                 {| Error.msg := "invalid challenge solution or remote IP";
                    Error.ErrorCodes := None;
                    Error.RequestError := false;
                    Error.ResponseBody := resultBody |})
             else
               when (negb result.(reCHAPTCHAResponse.Success))
                 (return_ (ptrError
                    {| Error.msg := "invalid challenge solution";
                       Error.ErrorCodes := None;
                       Error.RequestError := false;
                       Error.ResponseBody := resultBody |}))) ;;
            when (negb (String.eqb options.(VerifyOption.Hostname) "")
                  && negb (String.eqb options.(VerifyOption.Hostname)
                                      result.(reCHAPTCHAResponse.Hostname)))
              (return_ (ptrError
                 {| Error.msg := "invalid response hostname '"
                                 ++ result.(reCHAPTCHAResponse.Hostname)
                                 ++ "', while expecting '"
                                 ++ options.(VerifyOption.Hostname) ++ "'";
                    Error.ErrorCodes := None;
                    Error.RequestError := false;
                    Error.ResponseBody := resultBody |})) ;;
            when (negb (String.eqb options.(VerifyOption.ApkPackageName) "")
                  && negb (String.eqb options.(VerifyOption.ApkPackageName)
                                      result.(reCHAPTCHAResponse.ApkPackageName)))
              (return_ (ptrError
                 {| Error.msg := "invalid response ApkPackageName '"
                                 ++ result.(reCHAPTCHAResponse.ApkPackageName)
                                 ++ "', while expecting '"
                                 ++ options.(VerifyOption.ApkPackageName) ++ "'";
                    Error.ErrorCodes := None;
                    Error.RequestError := false;
                    Error.ResponseBody := resultBody |})) ;;
            when (negb (Z.eqb options.(VerifyOption.ResponseTime) 0))
              (duration <- call_Since r.(ReCAPTCHA.horloge)
                                      result.(reCHAPTCHAResponse.ChallengeTS) ;;
               when (Z.ltb options.(VerifyOption.ResponseTime) duration)
                 (let msg := "time spent in resolving challenge '"
                             ++ fmt_f (Seconds duration)
                             ++ "s', while expecting maximum '"
                             ++ fmt_f (Seconds options.(VerifyOption.ResponseTime)) ++ "s'" in
                  return_ (ptrError
                    {| Error.msg := msg;
                       Error.ErrorCodes := None;
                       Error.RequestError := false;
                       Error.ResponseBody := resultBody |}))) ;;
            return_ nil
          end
        end)
   end)%stmt.

Definition Verify (r : ReCAPTCHA.t) (challengeResponse : string) : Stmt error Empty_set :=
  let body := {| reCHAPTCHARequest.Secret := r.(ReCAPTCHA.Secret);
                 reCHAPTCHARequest.Response := challengeResponse;
                 reCHAPTCHARequest.RemoteIP := "" |} in
  confirm r body VerifyOption.zero.

Definition VerifyWithOptions (r : ReCAPTCHA.t) (challengeResponse : string)
           (options : VerifyOption.t) : Stmt error Empty_set :=
  let body :=
    if String.eqb options.(VerifyOption.RemoteIP) ""
    then {| reCHAPTCHARequest.Secret := r.(ReCAPTCHA.Secret);
            reCHAPTCHARequest.Response := challengeResponse;
            reCHAPTCHARequest.RemoteIP := "" |}
    else {| reCHAPTCHARequest.Secret := r.(ReCAPTCHA.Secret);
            reCHAPTCHARequest.Response := challengeResponse;
            reCHAPTCHARequest.RemoteIP := options.(VerifyOption.RemoteIP) |} in
  confirm r body options.

End Package.

(** ** The policy of section 4.5, step by step

    The vocabulary in which the properties are stated: the checks in the
    order the specification lists them, when each one fails (the condition of
    the corresponding [if] of [confirm]), and the [*Error] each one returns.
    [evaluate] is the specification's reading of the algorithm: run the
    checks in order and stop at the first one that fails. *)

Module Policy.

Inductive check : Type :=
| Action
| Score
| ErrorCodes
| Success
| Hostname
| ApkPackageName
| ResponseTime.

Definition order : list check :=
  [Action; Score; ErrorCodes; Success; Hostname; ApkPackageName; ResponseTime].

(** The threshold the score is compared with: the caller's when it is not
    zero, the default otherwise. *)
Definition effectiveThreshold (options : VerifyOption.t) : float32 :=
  if neq options.(VerifyOption.Threshold) GoFloat.zero
  then options.(VerifyOption.Threshold)
  else DefaultThreshold.

Section Evaluation.

Variable version : VERSION.
Variable recaptcha : reCHAPTCHARequest.t.
Variable options : VerifyOption.t.
Variable resultBody : string.
Variable result : reCHAPTCHAResponse.t.
(** What the time source answers for the challenge timestamp. *)
Variable elapsed : Duration.

Definition fails (c : check) : bool :=
  match c with
  | Action =>
    Z.eqb version V3
    && negb (String.eqb options.(VerifyOption.Action) "")
    && negb (String.eqb options.(VerifyOption.Action) result.(reCHAPTCHAResponse.Action))
  | Score =>
    Z.eqb version V3
    && gt (effectiveThreshold options) result.(reCHAPTCHAResponse.Score)
  | ErrorCodes =>
    negb (is_nil result.(reCHAPTCHAResponse.ErrorCodes))
  | Success =>
    negb result.(reCHAPTCHAResponse.Success)
  | Hostname =>
    negb (String.eqb options.(VerifyOption.Hostname) "")
    && negb (String.eqb options.(VerifyOption.Hostname)
                        result.(reCHAPTCHAResponse.Hostname))
  | ApkPackageName =>
    negb (String.eqb options.(VerifyOption.ApkPackageName) "")
    && negb (String.eqb options.(VerifyOption.ApkPackageName)
                        result.(reCHAPTCHAResponse.ApkPackageName))
  | ResponseTime =>
    negb (Z.eqb options.(VerifyOption.ResponseTime) 0)
    && Z.ltb options.(VerifyOption.ResponseTime) elapsed
  end.

Definition message (c : check) : string :=
  match c with
  | Action =>
    "invalid response action '" ++ result.(reCHAPTCHAResponse.Action)
    ++ "', while expecting '" ++ options.(VerifyOption.Action) ++ "'"
  | Score =>
    "received score '" ++ fmt_f result.(reCHAPTCHAResponse.Score)
    ++ "', while expecting minimum '" ++ fmt_f (effectiveThreshold options) ++ "'"
  | ErrorCodes =>
    "remote error codes: " ++ fmt_v result.(reCHAPTCHAResponse.ErrorCodes)
  | Success =>
    if String.eqb recaptcha.(reCHAPTCHARequest.RemoteIP) ""
    then "invalid challenge solution"
    else "invalid challenge solution or remote IP"
  | Hostname =>
    "invalid response hostname '" ++ result.(reCHAPTCHAResponse.Hostname)
    ++ "', while expecting '" ++ options.(VerifyOption.Hostname) ++ "'"
  | ApkPackageName =>
    "invalid response ApkPackageName '" ++ result.(reCHAPTCHAResponse.ApkPackageName)
    ++ "', while expecting '" ++ options.(VerifyOption.ApkPackageName) ++ "'"
  | ResponseTime =>
    "time spent in resolving challenge '" ++ fmt_f (Seconds elapsed)
    ++ "s', while expecting maximum '"
    ++ fmt_f (Seconds options.(VerifyOption.ResponseTime)) ++ "s'"
  end.

(** The rejection of a check: policy class, raw body attached, and the
    remote codes only for the error-codes check. *)
Definition rejection (c : check) : Error.t :=
  {| Error.msg := message c;
     Error.ErrorCodes :=
       match c with
       | ErrorCodes => result.(reCHAPTCHAResponse.ErrorCodes)
       | _ => None
       end;
     Error.RequestError := false;
     Error.ResponseBody := resultBody |}.

Definition evaluate : error :=
  match find fails order with
  | Some c => ptrError (rejection c)
  | None => nil
  end.

End Evaluation.

End Policy.

(** The form that [confirm] posts for a request. *)
Definition request_form (recaptcha : reCHAPTCHARequest.t) : Values :=
  if String.eqb recaptcha.(reCHAPTCHARequest.RemoteIP) ""
  then [("secret", [recaptcha.(reCHAPTCHARequest.Secret)]);
        ("response", [recaptcha.(reCHAPTCHARequest.Response)])]
  else [("secret", [recaptcha.(reCHAPTCHARequest.Secret)]);
        ("remoteip", [recaptcha.(reCHAPTCHARequest.RemoteIP)]);
        ("response", [recaptcha.(reCHAPTCHARequest.Response)])].

(** Field updates. *)
Definition with_Version (v : VERSION) (r : ReCAPTCHA.t) : ReCAPTCHA.t :=
  {| ReCAPTCHA.client := r.(ReCAPTCHA.client);
     ReCAPTCHA.Secret := r.(ReCAPTCHA.Secret);
     ReCAPTCHA.ReCAPTCHALink := r.(ReCAPTCHA.ReCAPTCHALink);
     ReCAPTCHA.Version := v;
     ReCAPTCHA.Timeout := r.(ReCAPTCHA.Timeout);
     ReCAPTCHA.horloge := r.(ReCAPTCHA.horloge) |}.

Definition with_Threshold (t : float32) (o : VerifyOption.t) : VerifyOption.t :=
  {| VerifyOption.Threshold := t;
     VerifyOption.Action := o.(VerifyOption.Action);
     VerifyOption.Hostname := o.(VerifyOption.Hostname);
     VerifyOption.ApkPackageName := o.(VerifyOption.ApkPackageName);
     VerifyOption.ResponseTime := o.(VerifyOption.ResponseTime);
     VerifyOption.RemoteIP := o.(VerifyOption.RemoteIP) |}.

Definition with_Action (a : string) (o : VerifyOption.t) : VerifyOption.t :=
  {| VerifyOption.Threshold := o.(VerifyOption.Threshold);
     VerifyOption.Action := a;
     VerifyOption.Hostname := o.(VerifyOption.Hostname);
     VerifyOption.ApkPackageName := o.(VerifyOption.ApkPackageName);
     VerifyOption.ResponseTime := o.(VerifyOption.ResponseTime);
     VerifyOption.RemoteIP := o.(VerifyOption.RemoteIP) |}.

(** ** Vocabulary of the properties *)

(** The transport phase went through: the engine has a client, the POST of
    the request's form was answered, the body read to its end and decoded
    into [result]. *)
Definition answered (json_Unmarshal : string -> string + reCHAPTCHAResponse.t)
           (r : ReCAPTCHA.t) (recaptcha : reCHAPTCHARequest.t)
           (resultBody : string) (result : reCHAPTCHAResponse.t) : Prop :=
  exists c,
    r.(ReCAPTCHA.client) = Some c
    /\ PostForm c r.(ReCAPTCHA.ReCAPTCHALink) (request_form recaptcha)
       = inr (ReadsAll resultBody)
    /\ json_Unmarshal resultBody = inr result.

(** The calls of an answered verification: one POST, one read, then [mid],
    and the deferred close of the body. *)
Definition answered_trace (r : ReCAPTCHA.t) (recaptcha : reCHAPTCHARequest.t)
           (mid : list event) : list event :=
  (EvPostForm r.(ReCAPTCHA.ReCAPTCHALink) (request_form recaptcha)
     :: EvReadAll :: mid ++ [EvClose])%list.

(** The checks that do not consult the clock. *)
Definition static_order : list Policy.check :=
  [Policy.Action; Policy.Score; Policy.ErrorCodes; Policy.Success; Policy.Hostname;
   Policy.ApkPackageName].

(** Position of a check in the order of the specification. *)
Definition rank (c : Policy.check) : nat :=
  match c with
  | Policy.Action => 0
  | Policy.Score => 1
  | Policy.ErrorCodes => 2
  | Policy.Success => 3
  | Policy.Hostname => 4
  | Policy.ApkPackageName => 5
  | Policy.ResponseTime => 6
  end.

(** Steps 2 and 3 of the policy alone: remote error codes, then the success
    flag. *)
Definition steps_2_3 (recaptcha : reCHAPTCHARequest.t)
           (resultBody : string) (result : reCHAPTCHAResponse.t) : error :=
  match find (Policy.fails V2 VerifyOption.zero result 0)
             [Policy.ErrorCodes; Policy.Success] with
  | Some c => ptrError (Policy.rejection recaptcha VerifyOption.zero resultBody result 0 c)
  | None => nil
  end.

(** "Present and non-empty", as the specification words the condition of the
    remote-error-codes step. *)
Definition present_and_non_empty (codes : option (list string)) : Prop :=
  exists c cs, codes = Some (c :: cs).

Definition count_posts (t : list event) : nat :=
  List.length (filter (fun e => match e with EvPostForm _ _ => true | _ => false end) t).

Definition consults_clock (t : list event) : bool :=
  existsb (fun e => match e with EvSince _ => true | _ => false end) t.

(** ** Fixtures: the collaborators of the package's test suite

    The clients answer every POST with a fixed body; [test_Unmarshal] stands
    for [encoding/json] on those bodies. *)

Module Fixtures.

Definition dq : string := String (ascii_of_nat 34) "".

Definition key (k : string) : string := dq ++ k ++ dq ++ ": ".

Definition str (s : string) : string := dq ++ s ++ dq.

(** 2018-03-06T03:41:29+00:00 *)
Definition challenge_ts : Time := 1520307689 * 1000000000.

Definition ts_field : string := key "challenge_ts" ++ str "2018-03-06T03:41:29+00:00".

Definition success_body : string :=
  "{" ++ key "success" ++ "true, " ++ ts_field ++ ", " ++ key "hostname" ++ str "test.com"
  ++ "}".

Definition invalid_solution_body : string :=
  "{" ++ key "success" ++ "false, " ++ ts_field ++ ", " ++ key "hostname" ++ str "test.com"
  ++ "}".

Definition failed_body : string :=
  "{" ++ key "success" ++ "false, " ++ ts_field ++ ", " ++ key "hostname" ++ str "test.com"
  ++ ", " ++ key "error-codes" ++ "[" ++ str "invalid-input-response" ++ ","
  ++ str "bad-request" ++ "]}".

Definition low_score_body : string :=
  "{" ++ key "success" ++ "true, " ++ ts_field ++ ", " ++ key "score" ++ "0.23}".

Definition high_score_body : string :=
  "{" ++ key "success" ++ "true, " ++ ts_field ++ ", " ++ key "score" ++ "0.8}".

(** Not in the test suite: a successful answer with an empty code list. *)
Definition empty_codes_body : string :=
  "{" ++ key "success" ++ "true, " ++ ts_field ++ ", " ++ key "error-codes" ++ "[]}".

Definition bogus_body : string := " bogus json ".

Definition decoded (success : bool) (hostname : string) (score : float32)
           (codes : option (list string)) : reCHAPTCHAResponse.t :=
  {| reCHAPTCHAResponse.Success := success;
     reCHAPTCHAResponse.ChallengeTS := challenge_ts;
     reCHAPTCHAResponse.Hostname := hostname;
     reCHAPTCHAResponse.ApkPackageName := "";
     reCHAPTCHAResponse.Action := "";
     reCHAPTCHAResponse.Score := score;
     reCHAPTCHAResponse.ErrorCodes := codes |}.

Definition success_result := decoded true "test.com" GoFloat.zero None.
Definition invalid_solution_result := decoded false "test.com" GoFloat.zero None.
Definition failed_result :=
  decoded false "test.com" GoFloat.zero (Some ["invalid-input-response"; "bad-request"]).
Definition low_score_result := decoded true "" (float32_of_ratio 23 100) None.
Definition high_score_result := decoded true "" (float32_of_ratio 8 10) None.
Definition empty_codes_result := decoded true "" GoFloat.zero (Some []).

Definition test_Unmarshal (body : string) : string + reCHAPTCHAResponse.t :=
  match find (fun entry => String.eqb (fst entry) body)
             [(success_body, success_result);
              (invalid_solution_body, invalid_solution_result);
              (failed_body, failed_result);
              (low_score_body, low_score_result);
              (high_score_body, high_score_result);
              (empty_codes_body, empty_codes_result)] with
  | Some entry => inr (snd entry)
  | None => inl "invalid character 'b' looking for beginning of value"
  end.

Definition replies (body : string) : netClient :=
  {| PostForm := fun _ _ => inr (ReadsAll body) |}.

Definition mockInvalidClient : netClient := replies bogus_body.

Definition mockUnavailableClient : netClient :=
  {| PostForm := fun _ _ => inl "Unable to connect to server" |}.

Definition mockInvalidReaderClient : netClient :=
  {| PostForm := fun _ _ => inr (ReadFails "read error") |}.

Definition mockSuccessClientNoOptions : netClient := replies success_body.
Definition mockInvalidSolutionClient : netClient := replies invalid_solution_body.
Definition mockFailedClientNoOptions : netClient := replies failed_body.
Definition mockV3FailClientWithThresholdOption : netClient := replies low_score_body.
Definition mockV3SuccessClientWithThresholdOption : netClient := replies high_score_body.
Definition emptyCodesClient : netClient := replies empty_codes_body.

Definition mockClockWithinRespenseTime : clock := {| Since := fun _ => 1 * Second |}.
Definition mockClockOverRespenseTime : clock := {| Since := fun _ => 8 * Second |}.

(** [ReCAPTCHA{client: c, Version: v, horloge: h}] *)
Definition engine (c : netClient) (v : VERSION) (h : option clock) : ReCAPTCHA.t :=
  {| ReCAPTCHA.client := Some c;
     ReCAPTCHA.Secret := "";
     ReCAPTCHA.ReCAPTCHALink := "";
     ReCAPTCHA.Version := v;
     ReCAPTCHA.Timeout := 0;
     ReCAPTCHA.horloge := h |}.

(** The request [Verify] builds for the token ["mycode"]. *)
Definition mycode : reCHAPTCHARequest.t :=
  {| reCHAPTCHARequest.Secret := "";
     reCHAPTCHARequest.Response := "mycode";
     reCHAPTCHARequest.RemoteIP := "" |}.

(** The engines of the tests. *)
Definition low_score_engine : ReCAPTCHA.t :=
  engine mockV3FailClientWithThresholdOption V3 None.
Definition unknown_version_engine : ReCAPTCHA.t :=
  engine mockV3FailClientWithThresholdOption 7 None.
Definition failed_engine : ReCAPTCHA.t := engine mockFailedClientNoOptions V2 None.
Definition invalid_solution_engine : ReCAPTCHA.t := engine mockInvalidSolutionClient V2 None.
Definition empty_codes_engine : ReCAPTCHA.t := engine emptyCodesClient V2 None.
Definition unavailable_engine : ReCAPTCHA.t := engine mockUnavailableClient V2 None.
Definition over_time_engine : ReCAPTCHA.t :=
  engine mockSuccessClientNoOptions V2 (Some mockClockOverRespenseTime).
Definition within_time_engine : ReCAPTCHA.t :=
  engine mockSuccessClientNoOptions V2 (Some mockClockWithinRespenseTime).

Definition with_ResponseTime (d : Duration) : VerifyOption.t :=
  {| VerifyOption.Threshold := GoFloat.zero;
     VerifyOption.Action := "";
     VerifyOption.Hostname := "";
     VerifyOption.ApkPackageName := "";
     VerifyOption.ResponseTime := d;
     VerifyOption.RemoteIP := "" |}.

End Fixtures.

(** ** The rest of the package and of its observable behaviour *)

(** [func (e *Error) Error() string { return e.msg }] *)
Definition Error_Error (e : Error.t) : string := e.(Error.msg).

(** The request both entry points hand to [confirm]: the engine's secret, the
    token, and the remote address of the options (none for [Verify]). *)
Definition verify_request (r : ReCAPTCHA.t) (challengeResponse : string) (ip : string)
  : reCHAPTCHARequest.t :=
  {| reCHAPTCHARequest.Secret := r.(ReCAPTCHA.Secret);
     reCHAPTCHARequest.Response := challengeResponse;
     reCHAPTCHARequest.RemoteIP := ip |}.

Definition count_closes (t : list event) : nat :=
  List.length (filter (fun e => match e with EvClose => true | _ => false end) t).

Definition count_reads (t : list event) : nat :=
  List.length (filter (fun e => match e with EvReadAll => true | _ => false end) t).

Definition count_clock (t : list event) : nat :=
  List.length (filter (fun e => match e with EvSince _ => true | _ => false end) t).

(** An option that names what the answer must carry is met when it is empty
    or equal to the answer's field. *)
Definition option_met (wanted got : string) : Prop := wanted = "" \/ wanted = got.

(** The checks that no version gates, those before the response-time bound. *)
Definition ungated_order : list Policy.check :=
  [Policy.ErrorCodes; Policy.Success; Policy.Hostname; Policy.ApkPackageName].

(** An answered verification in which the action check and the score check
    are not made at all: steps 2 to 6 of the policy and nothing before them.
    The first failing check among error codes, success flag, hostname and app
    package rejects; otherwise the response-time bound decides as [confirm]
    has it (no clock asked for a zero bound, a nil clock panics). *)
Definition ungated_evaluation (r : ReCAPTCHA.t) (recaptcha : reCHAPTCHARequest.t)
           (options : VerifyOption.t) (resultBody : string)
           (result : reCHAPTCHAResponse.t) : Stmt error Empty_set :=
  match find (Policy.fails V2 options result 0) ungated_order with
  | Some c =>
    (answered_trace r recaptcha [],
     Return (ptrError (Policy.rejection recaptcha options resultBody result 0 c)))
  | None =>
    if Z.eqb options.(VerifyOption.ResponseTime) 0
    then (answered_trace r recaptcha [], Return nil)
    else match r.(ReCAPTCHA.horloge) with
         | None => (answered_trace r recaptcha [], Panic)
         | Some h =>
           let elapsed := Since h result.(reCHAPTCHAResponse.ChallengeTS) in
           (answered_trace r recaptcha [EvSince result.(reCHAPTCHAResponse.ChallengeTS)],
            Return (if Z.ltb options.(VerifyOption.ResponseTime) elapsed
                    then ptrError (Policy.rejection recaptcha options resultBody result
                                                    elapsed Policy.ResponseTime)
                    else nil))
         end
  end.

(** An answer with another action and another score, all else equal. *)
Definition with_gated (action : string) (score : float32) (result : reCHAPTCHAResponse.t)
  : reCHAPTCHAResponse.t :=
  {| reCHAPTCHAResponse.Success := result.(reCHAPTCHAResponse.Success);
     reCHAPTCHAResponse.ChallengeTS := result.(reCHAPTCHAResponse.ChallengeTS);
     reCHAPTCHAResponse.Hostname := result.(reCHAPTCHAResponse.Hostname);
     reCHAPTCHAResponse.ApkPackageName := result.(reCHAPTCHAResponse.ApkPackageName);
     reCHAPTCHAResponse.Action := action;
     reCHAPTCHAResponse.Score := score;
     reCHAPTCHAResponse.ErrorCodes := result.(reCHAPTCHAResponse.ErrorCodes) |}.

(** The three texts of a request error and the texts of the rejections. *)
Inductive error_text : string -> bool -> Prop :=
| text_post (err : string) :
    error_text ("error posting to recaptcha endpoint: '" ++ err ++ "'") true
| text_read (err : string) :
    error_text ("couldn't read response body: '" ++ err ++ "'") true
| text_json (err : string) :
    error_text ("invalid response body json: '" ++ err ++ "'") true
| text_rejection recaptcha options result elapsed c :
    error_text (Policy.message recaptcha options result elapsed c) false.

Definition with_Hostname (h : string) (o : VerifyOption.t) : VerifyOption.t :=
  {| VerifyOption.Threshold := o.(VerifyOption.Threshold);
     VerifyOption.Action := o.(VerifyOption.Action);
     VerifyOption.Hostname := h;
     VerifyOption.ApkPackageName := o.(VerifyOption.ApkPackageName);
     VerifyOption.ResponseTime := o.(VerifyOption.ResponseTime);
     VerifyOption.RemoteIP := o.(VerifyOption.RemoteIP) |}.

Definition with_ApkPackageName (a : string) (o : VerifyOption.t) : VerifyOption.t :=
  {| VerifyOption.Threshold := o.(VerifyOption.Threshold);
     VerifyOption.Action := o.(VerifyOption.Action);
     VerifyOption.Hostname := o.(VerifyOption.Hostname);
     VerifyOption.ApkPackageName := a;
     VerifyOption.ResponseTime := o.(VerifyOption.ResponseTime);
     VerifyOption.RemoteIP := o.(VerifyOption.RemoteIP) |}.

Definition with_RemoteIP (ip : string) (o : VerifyOption.t) : VerifyOption.t :=
  {| VerifyOption.Threshold := o.(VerifyOption.Threshold);
     VerifyOption.Action := o.(VerifyOption.Action);
     VerifyOption.Hostname := o.(VerifyOption.Hostname);
     VerifyOption.ApkPackageName := o.(VerifyOption.ApkPackageName);
     VerifyOption.ResponseTime := o.(VerifyOption.ResponseTime);
     VerifyOption.RemoteIP := ip |}.

Module MoreFixtures.

(** The failed answer of the tests (error codes, no score), asked by a V3
    engine. *)
Definition failed_v3_engine : ReCAPTCHA.t :=
  Fixtures.engine Fixtures.mockFailedClientNoOptions V3 None.

(** The successful answer of the tests, asked by a V2 engine without clock. *)
Definition success_engine : ReCAPTCHA.t :=
  Fixtures.engine Fixtures.mockSuccessClientNoOptions V2 None.

(** The answer with score 0.8 of the tests, asked by a V3 engine. *)
Definition high_score_engine : ReCAPTCHA.t :=
  Fixtures.engine Fixtures.mockV3SuccessClientWithThresholdOption V3 None.

(** What [NewReCAPTCHA] builds over the stand-ins below. *)
Definition constructed_engine : ReCAPTCHA.t :=
  {| ReCAPTCHA.client := Some Fixtures.mockSuccessClientNoOptions;
     ReCAPTCHA.Secret := "my secret";
     ReCAPTCHA.ReCAPTCHALink := reCAPTCHALink;
     ReCAPTCHA.Version := V2;
     ReCAPTCHA.Timeout := 10 * Second;
     ReCAPTCHA.horloge := Some {| Since := fun _ => 8 * Second |} |}.

(** [ReCAPTCHA{}], an engine with no client. *)
Definition no_client_engine : ReCAPTCHA.t := ReCAPTCHA.zero.

(** Stand-ins for [net/http] and the wall clock behind [NewReCAPTCHA]. *)
Definition http_success (timeout : Duration) : netClient :=
  Fixtures.mockSuccessClientNoOptions.

Definition eight_seconds_later (t : Time) : Duration := 8 * Second.

End MoreFixtures.

(** ** Float comparison *)

Lemma SFcompare_swap (x y : spec_float) (c : comparison) :
  SFcompare x y = Some c -> SFcompare y x = Some (CompOpp c).
Proof.
  destruct x as [sx | sx | | sx mx ex], y as [sy | sy | | sy my ey]; cbn;
    try discriminate;
    try (intros H; injection H as <-;
         repeat match goal with s : bool |- _ => destruct s end; reflexivity).
  intros H; injection H as <-. f_equal.
  fold (Pos.compare mx my). fold (Pos.compare my mx).
  rewrite (Z.compare_antisym ex ey), (Pos.compare_antisym mx my).
  destruct sx, sy; try reflexivity;
    destruct (ex ?= ey); cbn; try reflexivity;
    destruct (mx ?= my)%positive; reflexivity.
Qed.

(** [y <= x] excludes [x < y]. *)
Lemma SFleb_not_SFltb (x y : spec_float) : SFleb y x = true -> SFltb x y = false.
Proof.
  unfold SFleb, SFltb.
  destruct (SFcompare y x) as [c | ] eqn:Hc; [ | discriminate].
  rewrite (SFcompare_swap _ _ _ Hc).
  destruct c; cbn; congruence.
Qed.

Lemma digits2_pos_size (m : positive) : digits2_pos m = Pos.size m.
Proof. induction m; cbn; congruence. Qed.

Lemma digits2_bounds (m : positive) :
  2 ^ (Zpos (digits2_pos m) - 1) <= Zpos m < 2 ^ Zpos (digits2_pos m).
Proof.
  rewrite digits2_pos_size. split.
  - pose proof (Pos.size_le m) as H.
    assert (E : 2 ^ Zpos (Pos.size m) = 2 * 2 ^ (Zpos (Pos.size m) - 1)).
    { rewrite <- Z.pow_succ_r by lia. f_equal. lia. }
    assert (H' : 2 ^ Zpos (Pos.size m) <= Zpos m~0).
    { rewrite <- Pos2Z.inj_pow. exact H. }
    lia.
  - pose proof (Pos.size_gt m) as H.
    rewrite <- Pos2Z.inj_pow. exact H.
Qed.

Lemma bounded32 m e :
  bounded 24 128 m e = true ->
  -149 <= e /\ Zpos m < 2 ^ 24 /\ (-149 < e -> 2 ^ 23 <= Zpos m).
Proof.
  unfold bounded, canonical_mantissa, fexp, emin.
  intros H. apply andb_prop in H. destruct H as [H _]. apply Z.eqb_eq in H.
  pose proof (digits2_bounds m) as [Hlo Hhi].
  set (d := Zpos (digits2_pos m)) in *.
  assert (Hd : d <= 24) by lia.
  split; [lia | split].
  - apply (Z.lt_le_trans _ _ _ Hhi). apply Z.pow_le_mono_r; lia.
  - intros He. assert (d = 24) by lia. replace 23 with (d - 1) by lia. exact Hlo.
Qed.

Lemma scaled_lt_exponent m1 e1 m2 e2 :
  bounded 24 128 m1 e1 = true -> bounded 24 128 m2 e2 = true -> e1 < e2 ->
  Zpos m1 * 2 ^ (e1 + 149) < Zpos m2 * 2 ^ (e2 + 149).
Proof.
  intros H1 H2 He.
  destruct (bounded32 _ _ H1) as (L1 & U1 & _).
  destruct (bounded32 _ _ H2) as (L2 & _ & N2).
  specialize (N2 ltac:(lia)).
  replace (e2 + 149) with ((e1 + 149) + (e2 - e1)) by lia.
  assert (K1 : 0 <= e1 + 149) by (clear - L1; lia).
  assert (K2 : 0 <= e2 - e1) by (clear - He; lia).
  rewrite (Z.pow_add_r 2 _ _ K1 K2).
  assert (0 < 2 ^ (e1 + 149)) by (apply Z.pow_pos_nonneg; lia).
  assert (2 ^ 1 <= 2 ^ (e2 - e1)) by (apply Z.pow_le_mono_r; lia).
  change (2 ^ 24) with 16777216 in *. change (2 ^ 23) with 8388608 in *.
  change (2 ^ 1) with 2 in *.
  set (a := 2 ^ (e1 + 149)) in *. set (b := 2 ^ (e2 - e1)) in *.
  clearbody a b.
  assert (Hm : Zpos m1 < Zpos m2 * b) by nia.
  rewrite (Z.mul_comm a b), Z.mul_assoc.
  apply Z.mul_lt_mono_pos_r; assumption.
Qed.

(** On proper finite values the IEEE comparison is the comparison of the
    numbers. *)
Lemma SFcompare_scaled32 x y :
  valid32 x = true -> valid32 y = true -> is_finite x = true -> is_finite y = true ->
  SFcompare x y = Some (scaled32 x ?= scaled32 y).
Proof.
  destruct x as [sx | sx | | sx mx ex], y as [sy | sy | | sy my ey];
    cbn [valid32 valid_binary is_finite]; try discriminate; intros Hx Hy _ _.
  - reflexivity.
  - destruct (bounded32 _ _ Hy) as (L & _ & _).
    assert (0 < Zpos my * 2 ^ (ey + 149)) by (apply Z.mul_pos_pos; [lia | apply Z.pow_pos_nonneg; lia]).
    cbn [SFcompare scaled32]. f_equal. symmetry.
    destruct sy; cbn [cond_Zopp]; [apply Z.compare_gt_iff | apply Z.compare_lt_iff]; lia.
  - destruct (bounded32 _ _ Hx) as (L & _ & _).
    assert (0 < Zpos mx * 2 ^ (ex + 149)) by (apply Z.mul_pos_pos; [lia | apply Z.pow_pos_nonneg; lia]).
    cbn [SFcompare scaled32]. f_equal. symmetry.
    destruct sx; cbn [cond_Zopp]; [apply Z.compare_lt_iff | apply Z.compare_gt_iff]; lia.
  - destruct (bounded32 _ _ Hx) as (Lx & _ & _).
    destruct (bounded32 _ _ Hy) as (Ly & _ & _).
    assert (Px : 0 < Zpos mx * 2 ^ (ex + 149)) by (apply Z.mul_pos_pos; [lia | apply Z.pow_pos_nonneg; lia]).
    assert (Py : 0 < Zpos my * 2 ^ (ey + 149)) by (apply Z.mul_pos_pos; [lia | apply Z.pow_pos_nonneg; lia]).
    assert (Hpos : (Zpos mx * 2 ^ (ex + 149) ?= Zpos my * 2 ^ (ey + 149))
                   = match ex ?= ey with
                     | Lt => Lt
                     | Gt => Gt
                     | Eq => Pos.compare_cont Eq mx my
                     end).
    { destruct (Z.compare_spec ex ey) as [E | E | E].
      - subst ey.
        assert (Hp : 0 < 2 ^ (ex + 149)) by (apply Z.pow_pos_nonneg; lia).
        change (Pos.compare_cont Eq mx my) with (Zpos mx ?= Zpos my).
        destruct (Z.compare_spec (Zpos mx) (Zpos my)) as [M | M | M].
        + rewrite M. apply Z.compare_refl.
        + apply Z.compare_lt_iff. apply Z.mul_lt_mono_pos_r; assumption.
        + apply Z.compare_gt_iff. apply Z.mul_lt_mono_pos_r; assumption.
      - apply Z.compare_lt_iff. apply scaled_lt_exponent; assumption.
      - apply Z.compare_gt_iff. apply scaled_lt_exponent; assumption. }
    cbn [SFcompare scaled32]. f_equal.
    destruct sx, sy; cbn [cond_Zopp].
    + rewrite Z.compare_opp.
      rewrite (Z.compare_antisym (Zpos mx * 2 ^ (ex + 149)) (Zpos my * 2 ^ (ey + 149))), Hpos.
      destruct (ex ?= ey); reflexivity.
    + symmetry. apply Z.compare_lt_iff. lia.
    + symmetry. apply Z.compare_gt_iff. lia.
    + rewrite Hpos. reflexivity.
Qed.

Lemma SFltb_scaled32 x y :
  valid32 x = true -> valid32 y = true -> is_finite x = true -> is_finite y = true ->
  SFltb x y = (scaled32 x <? scaled32 y).
Proof.
  intros Vx Vy Fx Fy. unfold SFltb, Z.ltb.
  rewrite (SFcompare_scaled32 x y Vx Vy Fx Fy). reflexivity.
Qed.

(** The default threshold is one half. *)
Lemma DefaultThreshold_half :
  valid32 DefaultThreshold = true
  /\ is_finite DefaultThreshold = true
  /\ 2 * scaled32 DefaultThreshold = 2 ^ 149.
Proof. repeat split; vm_compute; reflexivity. Qed.

(** ** [confirm] once the remote service has answered *)

Ltac crunch :=
  cbv beta iota zeta delta [when bind return_ pure emit panic defer app fst snd negb andb find
                            is_nil call_Since].

Ltac decided :=
  lazymatch goal with
  | |- (_, Return _) = (_, Return _) => reflexivity
  | |- (_, Panic) = (_, Panic) => reflexivity
  | |- _ => idtac
  end.

Ltac cases b :=
  lazymatch goal with
  | |- context [b] => destruct b eqn:?; crunch; decided
  | |- _ => idtac
  end.

Section Answered.

Variable json_Unmarshal : string -> string + reCHAPTCHAResponse.t.

(** The whole behaviour of [confirm] on an answered request: the first
    failing check among those that need no clock decides; otherwise the
    clock is consulted only for a nonzero [ResponseTime], and a nil clock
    panics there. *)
Lemma confirm_answered r recaptcha options resultBody result d :
  answered json_Unmarshal r recaptcha resultBody result ->
  confirm json_Unmarshal r recaptcha options =
  match find (Policy.fails r.(ReCAPTCHA.Version) options result d) static_order with
  | Some c =>
    (answered_trace r recaptcha [],
     Return (ptrError (Policy.rejection recaptcha options resultBody result d c)))
  | None =>
    if Z.eqb options.(VerifyOption.ResponseTime) 0
    then (answered_trace r recaptcha [], Return nil)
    else match r.(ReCAPTCHA.horloge) with
         | None => (answered_trace r recaptcha [], Panic)
         | Some h =>
           let elapsed := Since h result.(reCHAPTCHAResponse.ChallengeTS) in
           (answered_trace r recaptcha [EvSince result.(reCHAPTCHAResponse.ChallengeTS)],
            Return (if Z.ltb options.(VerifyOption.ResponseTime) elapsed
                    then ptrError (Policy.rejection recaptcha options resultBody result
                                                    elapsed Policy.ResponseTime)
                    else nil))
         end
  end.
Proof.
  intros (c & Hc & Hp & Hj).
  unfold confirm, answered_trace, request_form in *.
  rewrite Hc. cbn [call_PostForm].
  destruct (String.eqb (reCHAPTCHARequest.RemoteIP recaptcha) "") eqn:Hip;
    cbn [negb]; unfold ReadAll; crunch; rewrite Hp, Hj;
    unfold static_order, Policy.fails, Policy.rejection, Policy.message,
      Policy.effectiveThreshold, GoFloat.neq, GoFloat.eq, GoFloat.gt; rewrite Hip.
  all: cases (Z.eqb (ReCAPTCHA.Version r) V3).
  all: cases (String.eqb (VerifyOption.Action options) "").
  all: cases (String.eqb (VerifyOption.Action options) (reCHAPTCHAResponse.Action result)).
  all: cases (SFeqb (VerifyOption.Threshold options) GoFloat.zero).
  all: cases (SFltb (reCHAPTCHAResponse.Score result) DefaultThreshold).
  all: cases (SFltb (reCHAPTCHAResponse.Score result) (VerifyOption.Threshold options)).
  all: cases (reCHAPTCHAResponse.ErrorCodes result).
  all: cases (reCHAPTCHAResponse.Success result).
  all: cases (String.eqb (VerifyOption.Hostname options) "").
  all: cases (String.eqb (VerifyOption.Hostname options) (reCHAPTCHAResponse.Hostname result)).
  all: cases (String.eqb (VerifyOption.ApkPackageName options) "").
  all: cases (String.eqb (VerifyOption.ApkPackageName options)
                         (reCHAPTCHAResponse.ApkPackageName result)).
  all: cases (Z.eqb (VerifyOption.ResponseTime options) 0).
  all: cases (ReCAPTCHA.horloge r).
  all: match goal with
       | |- context [Z.ltb ?a ?b] => destruct (Z.ltb a b) eqn:?; reflexivity
       end.
Qed.

Lemma answered_with_Version v r recaptcha resultBody result :
  answered json_Unmarshal r recaptcha resultBody result ->
  answered json_Unmarshal (with_Version v r) recaptcha resultBody result.
Proof. intros (c & Hc & Hp & Hj). exists c. auto. Qed.

End Answered.

(** ** The rejections are told apart by their messages *)

Lemma message_kind recaptcha options result d d' c c' :
  Policy.message recaptcha options result d c = Policy.message recaptcha options result d' c' ->
  c = c'.
Proof.
  destruct c, c'; try reflexivity; cbn;
    destruct (String.eqb (reCHAPTCHARequest.RemoteIP recaptcha) ""); cbn;
    intros H; exfalso; congruence.
Qed.

Lemma rejection_kind recaptcha options resultBody result d d' c c' :
  Policy.rejection recaptcha options resultBody result d c
  = Policy.rejection recaptcha options resultBody result d' c' ->
  c = c'.
Proof.
  unfold Policy.rejection. intros H.
  apply (message_kind recaptcha options result d d').
  congruence.
Qed.

(** A check other than the response-time bound ignores the clock reading. *)
Lemma rejection_static recaptcha options resultBody result d d' c :
  c <> Policy.ResponseTime ->
  Policy.rejection recaptcha options resultBody result d c
  = Policy.rejection recaptcha options resultBody result d' c.
Proof. destruct c; congruence || reflexivity. Qed.

Lemma fails_static version options result d d' c :
  c <> Policy.ResponseTime ->
  Policy.fails version options result d c = Policy.fails version options result d' c.
Proof. destruct c; congruence || reflexivity. Qed.

(** ** The order of the checks *)

Lemma evaluate_split version recaptcha options resultBody result elapsed :
  Policy.evaluate version recaptcha options resultBody result elapsed =
  match find (Policy.fails version options result elapsed) static_order with
  | Some c => ptrError (Policy.rejection recaptcha options resultBody result elapsed c)
  | None =>
    if negb (Z.eqb options.(VerifyOption.ResponseTime) 0)
       && Z.ltb options.(VerifyOption.ResponseTime) elapsed
    then ptrError (Policy.rejection recaptcha options resultBody result elapsed
                                    Policy.ResponseTime)
    else nil
  end.
Proof.
  unfold Policy.evaluate, Policy.order, static_order. cbn [find].
  change (Policy.fails version options result elapsed Policy.ResponseTime)
    with (negb (Z.eqb options.(VerifyOption.ResponseTime) 0)
          && Z.ltb options.(VerifyOption.ResponseTime) elapsed).
  repeat match goal with
         | |- context [if Policy.fails ?v ?o ?r ?e ?c then _ else _] =>
           destruct (Policy.fails v o r e c)
         end;
    try reflexivity.
  destruct (negb _ && _); reflexivity.
Qed.

Lemma find_earliest (fails : Policy.check -> bool) (c : Policy.check) :
  fails c = true ->
  (forall c', (rank c' < rank c)%nat -> fails c' = false) ->
  find fails Policy.order = Some c.
Proof.
  intros Hc Hbefore. unfold Policy.order. cbn [find].
  destruct c; repeat (rewrite Hbefore by (cbn; lia)); rewrite Hc; reflexivity.
Qed.

Lemma find_none_order (fails : Policy.check -> bool) :
  (forall c, fails c = false) -> find fails Policy.order = None.
Proof. intros H. unfold Policy.order. cbn [find]. rewrite !H. reflexivity. Qed.

Section Claims.

Variable json_Unmarshal : string -> string + reCHAPTCHAResponse.t.

(** With a clock, an answered [confirm] returns what the specification's
    evaluation gives. *)
Lemma confirm_evaluate r recaptcha options resultBody result h :
  answered json_Unmarshal r recaptcha resultBody result ->
  r.(ReCAPTCHA.horloge) = Some h ->
  run (confirm json_Unmarshal r recaptcha options)
  = Returned (Policy.evaluate r.(ReCAPTCHA.Version) recaptcha options resultBody result
                              (Since h result.(reCHAPTCHAResponse.ChallengeTS))).
Proof.
  intros Ha Hh.
  rewrite (confirm_answered _ _ _ _ _ _ (Since h result.(reCHAPTCHAResponse.ChallengeTS)) Ha).
  rewrite evaluate_split, Hh.
  destruct (find _ static_order); [reflexivity | ].
  destruct (Z.eqb (VerifyOption.ResponseTime options) 0); [reflexivity | ].
  cbn [negb andb].
  destruct (Z.ltb _ _); reflexivity.
Qed.

(** C10: for an engine whose version is anything but V3, inside the declared
    enumeration or not, the action check and the score check are skipped
    entirely.  [confirm] is what it is for a V2 engine, and the options'
    action and threshold have no influence on it.  On an answered request it
    is the evaluation of steps 2 to 6 alone: it never returns the action or
    the score rejection, the answer's action and score have no influence on
    it, and an answer that passes steps 2 to 5 under a zero response-time
    bound is accepted whatever its score and action and whatever threshold
    and action the options hold. *)
Theorem non_V3_version_is_V2 r recaptcha options :
  r.(ReCAPTCHA.Version) <> V3 ->
  confirm json_Unmarshal r recaptcha options = confirm json_Unmarshal (with_Version V2 r) recaptcha options
  /\ (forall t a,
       confirm json_Unmarshal r recaptcha options
       = confirm json_Unmarshal r recaptcha (with_Threshold t (with_Action a options)))
  /\ (forall resultBody result,
         answered json_Unmarshal r recaptcha resultBody result ->
         confirm json_Unmarshal r recaptcha options
         = ungated_evaluation r recaptcha options resultBody result)
  /\ (forall resultBody result d c,
         answered json_Unmarshal r recaptcha resultBody result ->
         run (confirm json_Unmarshal r recaptcha options)
         = Returned (ptrError (Policy.rejection recaptcha options resultBody result d c)) ->
         c <> Policy.Action /\ c <> Policy.Score)
  /\ (forall (other_Unmarshal : string -> string + reCHAPTCHAResponse.t)
             resultBody result action score,
         answered json_Unmarshal r recaptcha resultBody result ->
         answered other_Unmarshal r recaptcha resultBody (with_gated action score result) ->
         confirm json_Unmarshal r recaptcha options
         = confirm other_Unmarshal r recaptcha options)
  /\ (forall resultBody result,
         answered json_Unmarshal r recaptcha resultBody result ->
         result.(reCHAPTCHAResponse.ErrorCodes) = None ->
         result.(reCHAPTCHAResponse.Success) = true ->
         option_met options.(VerifyOption.Hostname) result.(reCHAPTCHAResponse.Hostname) ->
         option_met options.(VerifyOption.ApkPackageName)
                    result.(reCHAPTCHAResponse.ApkPackageName) ->
         options.(VerifyOption.ResponseTime) = 0 ->
         run (confirm json_Unmarshal r recaptcha options) = Returned nil).
Proof.
  intros Hv. apply Z.eqb_neq in Hv.
  assert (U : forall (decode : string -> string + reCHAPTCHAResponse.t) resultBody result,
             answered decode r recaptcha resultBody result ->
             confirm decode r recaptcha options
             = ungated_evaluation r recaptcha options resultBody result).
  { intros decode resultBody result Ha.
    rewrite (confirm_answered _ _ _ options _ _ 0 Ha).
    unfold ungated_evaluation, static_order, ungated_order. cbn [find].
    cbn [Policy.fails]. rewrite Hv. cbn [andb]. reflexivity. }
  assert (M : forall wanted got,
             option_met wanted got ->
             negb (String.eqb wanted "") && negb (String.eqb wanted got) = false).
  { intros wanted got [-> | ->].
    - reflexivity.
    - rewrite String.eqb_refl. apply andb_false_r. }
  split; [ | split; [ | split; [ | split; [ | split]]]].
  - unfold confirm, with_Version.
    cbn [ReCAPTCHA.Version ReCAPTCHA.client ReCAPTCHA.ReCAPTCHALink ReCAPTCHA.horloge].
    rewrite Hv. reflexivity.
  - intros t a. unfold confirm, with_Threshold, with_Action.
    cbn [VerifyOption.Hostname VerifyOption.ApkPackageName VerifyOption.ResponseTime
         VerifyOption.Action VerifyOption.Threshold].
    rewrite Hv. reflexivity.
  - intros resultBody result Ha. exact (U json_Unmarshal resultBody result Ha).
  - intros resultBody result d c Ha. rewrite (U json_Unmarshal resultBody result Ha).
    unfold ungated_evaluation.
    destruct (find _ ungated_order) as [c' | ] eqn:F.
    + intros E.
      assert (K : Policy.rejection recaptcha options resultBody result 0 c'
                  = Policy.rejection recaptcha options resultBody result d c)
        by (unfold run, snd in E; congruence).
      apply rejection_kind in K. subst c'.
      apply find_some in F. destruct F as [Hin _].
      cbn [ungated_order In] in Hin.
      destruct Hin as [<- | [<- | [<- | [<- | []]]]]; split; discriminate.
    + destruct (Z.eqb _ 0); [discriminate | ].
      destruct (ReCAPTCHA.horloge r) as [c0 | ]; [ | discriminate].
      cbv zeta. destruct (Z.ltb _ _); [ | discriminate].
      intros E.
      assert (K : Policy.rejection recaptcha options resultBody result
                                   (Since c0 (reCHAPTCHAResponse.ChallengeTS result))
                                   Policy.ResponseTime
                  = Policy.rejection recaptcha options resultBody result d c)
        by (unfold run, snd in E; congruence).
      apply rejection_kind in K. subst c. split; discriminate.
  - intros other_Unmarshal resultBody result action score Ha Ha'.
    rewrite (U json_Unmarshal resultBody result Ha).
    rewrite (U other_Unmarshal resultBody _ Ha').
    unfold ungated_evaluation, ungated_order, with_gated. cbn [find].
    cbn [Policy.fails reCHAPTCHAResponse.ErrorCodes reCHAPTCHAResponse.Success
         reCHAPTCHAResponse.Hostname reCHAPTCHAResponse.ApkPackageName
         reCHAPTCHAResponse.ChallengeTS].
    destruct (negb (is_nil _)); [reflexivity | ].
    destruct (negb (reCHAPTCHAResponse.Success result)); [reflexivity | ].
    destruct (negb (String.eqb (VerifyOption.Hostname options) "") && _); [reflexivity | ].
    destruct (negb (String.eqb (VerifyOption.ApkPackageName options) "") && _);
      [reflexivity | ].
    destruct (Z.eqb _ 0); [reflexivity | ].
    destruct (ReCAPTCHA.horloge r); [ | reflexivity].
    cbv zeta. destruct (Z.ltb _ _); reflexivity.
  - intros resultBody result Ha Hcodes Hsuccess Hhost Hapk Hrt.
    rewrite (U json_Unmarshal resultBody result Ha).
    unfold ungated_evaluation, ungated_order. cbn [find]. cbn [Policy.fails].
    rewrite Hcodes, Hsuccess, (M _ _ Hhost), (M _ _ Hapk), Hrt. reflexivity.
Qed.

(** *** What an answered [confirm] returns *)

Lemma run_confirm_answered r recaptcha options resultBody result d :
  answered json_Unmarshal r recaptcha resultBody result ->
  run (confirm json_Unmarshal r recaptcha options) =
  match find (Policy.fails r.(ReCAPTCHA.Version) options result d) static_order with
  | Some c => Returned (ptrError (Policy.rejection recaptcha options resultBody result d c))
  | None =>
    if Z.eqb options.(VerifyOption.ResponseTime) 0
    then Returned nil
    else match r.(ReCAPTCHA.horloge) with
         | None => Panicked
         | Some h =>
           let elapsed := Since h result.(reCHAPTCHAResponse.ChallengeTS) in
           Returned (if Z.ltb options.(VerifyOption.ResponseTime) elapsed
                     then ptrError (Policy.rejection recaptcha options resultBody result
                                                     elapsed Policy.ResponseTime)
                     else nil)
         end
  end.
Proof.
  intros Ha. rewrite (confirm_answered _ _ _ _ _ _ d Ha).
  destruct (find _ static_order); [reflexivity | ].
  destruct (Z.eqb _ 0); [reflexivity | ].
  destruct (ReCAPTCHA.horloge r); reflexivity.
Qed.

(** Every [*Error] of an answered [confirm] is the rejection of a check that
    fails. *)
Lemma confirm_rejection r recaptcha options resultBody result e :
  answered json_Unmarshal r recaptcha resultBody result ->
  run (confirm json_Unmarshal r recaptcha options) = Returned (ptrError e) ->
  exists c elapsed,
    e = Policy.rejection recaptcha options resultBody result elapsed c
    /\ Policy.fails r.(ReCAPTCHA.Version) options result elapsed c = true.
Proof.
  intros Ha. rewrite (run_confirm_answered _ _ _ _ _ 0 Ha).
  destruct (find _ static_order) as [c | ] eqn:F.
  - intros [= <-]. exists c, 0. split; [reflexivity | ].
    apply (find_some _ _ F).
  - destruct (Z.eqb _ 0) eqn:Hrt; [discriminate | ].
    destruct (ReCAPTCHA.horloge r) as [h | ]; [ | discriminate].
    cbv zeta. destruct (Z.ltb _ _) eqn:Hlt; [ | discriminate].
    intros [= <-]. exists Policy.ResponseTime, (Since h (reCHAPTCHAResponse.ChallengeTS result)).
    split; [reflexivity | ]. cbn [Policy.fails]. rewrite Hrt, Hlt. reflexivity.
Qed.

Lemma find_earliest_static (fails : Policy.check -> bool) (c : Policy.check) :
  In c static_order ->
  fails c = true ->
  (forall c', (rank c' < rank c)%nat -> fails c' = false) ->
  find fails static_order = Some c.
Proof.
  intros Hin Hc Hbefore. unfold static_order in *. cbn [find].
  destruct c; repeat (rewrite Hbefore by (cbn; lia)); rewrite ?Hc; try reflexivity.
  cbn [In] in Hin. repeat (destruct Hin as [Hin | Hin]; [discriminate Hin | ]). contradiction.
Qed.

(** C4: on an answered request the checks run in the order action, score
    (both only under V3), remote error codes, success flag, hostname, app
    package, response time, and the first one that fails decides.  A failing
    check that needs no clock, with no failing check before it, gives the
    returned rejection whatever the time source; with a time source,
    [confirm] returns exactly the rejection of the earliest failing check of
    the whole list, and nil when no check fails. *)
Theorem policy_checks_in_order r recaptcha options resultBody result :
  answered json_Unmarshal r recaptcha resultBody result ->
  (forall c d,
      In c static_order ->
      Policy.fails r.(ReCAPTCHA.Version) options result d c = true ->
      (forall c', (rank c' < rank c)%nat ->
                  Policy.fails r.(ReCAPTCHA.Version) options result d c' = false) ->
      run (confirm json_Unmarshal r recaptcha options)
      = Returned (ptrError (Policy.rejection recaptcha options resultBody result d c)))
  /\ forall h,
      r.(ReCAPTCHA.horloge) = Some h ->
      let elapsed := Since h result.(reCHAPTCHAResponse.ChallengeTS) in
      let fails := Policy.fails r.(ReCAPTCHA.Version) options result elapsed in
      let rejection := Policy.rejection recaptcha options resultBody result elapsed in
      run (confirm json_Unmarshal r recaptcha options)
      = Returned match find fails Policy.order with
                 | Some c => ptrError (rejection c)
                 | None => nil
                 end
      /\ (forall c, fails c = true ->
                    (forall c', (rank c' < rank c)%nat -> fails c' = false) ->
                    run (confirm json_Unmarshal r recaptcha options)
                    = Returned (ptrError (rejection c)))
      /\ ((forall c, fails c = false) ->
          run (confirm json_Unmarshal r recaptcha options) = Returned nil).
Proof.
  intros Ha. split.
  - intros c d Hin Hc Hbefore.
    rewrite (run_confirm_answered _ _ _ _ _ d Ha).
    rewrite (find_earliest_static _ c Hin Hc Hbefore). reflexivity.
  - intros h Hh elapsed fails rejection.
    pose proof (confirm_evaluate r recaptcha options resultBody result h Ha Hh) as E.
    unfold Policy.evaluate in E. fold elapsed in E. fold fails in E. fold rejection in E.
    split; [exact E | split].
    + intros c Hc Hbefore. rewrite E, (find_earliest fails c Hc Hbefore). reflexivity.
    + intros Hnone. rewrite E, (find_none_order fails Hnone). reflexivity.
Qed.

(** An engine does, after passed version-gated checks, what a V2 engine does. *)
Lemma find_static_gated version options result d :
  Policy.fails version options result d Policy.Action = false ->
  Policy.fails version options result d Policy.Score = false ->
  find (Policy.fails version options result d) static_order
  = find (Policy.fails V2 options result d) static_order.
Proof.
  intros Ha Hs. unfold static_order. cbn [find]. rewrite Ha, Hs. reflexivity.
Qed.

Lemma confirm_gated_pass r recaptcha options resultBody result d :
  answered json_Unmarshal r recaptcha resultBody result ->
  Policy.fails r.(ReCAPTCHA.Version) options result d Policy.Action = false ->
  Policy.fails r.(ReCAPTCHA.Version) options result d Policy.Score = false ->
  confirm json_Unmarshal r recaptcha options
  = confirm json_Unmarshal (with_Version V2 r) recaptcha options.
Proof.
  intros Ha Hact Hscore.
  rewrite (confirm_answered _ _ _ _ _ _ d Ha).
  rewrite (confirm_answered _ _ _ _ _ _ d (answered_with_Version _ V2 _ _ _ _ Ha)).
  rewrite (find_static_gated _ _ _ _ Hact Hscore). reflexivity.
Qed.

Lemma action_passes version options result d :
  options.(VerifyOption.Action) = ""
  \/ options.(VerifyOption.Action) = result.(reCHAPTCHAResponse.Action) ->
  Policy.fails version options result d Policy.Action = false.
Proof.
  intros H. cbn [Policy.fails].
  destruct (String.eqb_spec (VerifyOption.Action options) "") as [E | E];
    [ now rewrite andb_false_r | ].
  destruct (String.eqb_spec (VerifyOption.Action options) (reCHAPTCHAResponse.Action result));
    [ now rewrite andb_false_r | tauto ].
Qed.

Lemma action_passed options result d :
  Policy.fails V3 options result d Policy.Action = false ->
  options.(VerifyOption.Action) = ""
  \/ options.(VerifyOption.Action) = result.(reCHAPTCHAResponse.Action).
Proof.
  cbn [Policy.fails]. change (Z.eqb V3 V3) with true. cbn [andb].
  destruct (String.eqb_spec (VerifyOption.Action options) "") as [E | E]; [tauto | ].
  destruct (String.eqb_spec (VerifyOption.Action options) (reCHAPTCHAResponse.Action result));
    [tauto | discriminate].
Qed.

(** C1: under V3 the score is compared with the effective threshold, which is
    the default 0.5 when the caller's threshold is zero and the caller's
    threshold otherwise.  [confirm] returns the score rejection exactly when
    the action check lets the evaluation through and the score is below the
    effective threshold, and a score below it is rejected in any case; a
    score at or above it (equality included) is not below it, and the
    evaluation then goes on as it would with no version-gated check; on
    proper finite values "below" is the order of the numbers; a threshold
    that compares equal to zero gives the same evaluation as the unset
    one. *)
Theorem score_threshold r recaptcha options resultBody result :
  answered json_Unmarshal r recaptcha resultBody result ->
  r.(ReCAPTCHA.Version) = V3 ->
  let score := result.(reCHAPTCHAResponse.Score) in
  let threshold := options.(VerifyOption.Threshold) in
  let effective := Policy.effectiveThreshold options in
  let action_ok :=
      options.(VerifyOption.Action) = ""
      \/ options.(VerifyOption.Action) = result.(reCHAPTCHAResponse.Action) in
  let below :=
      ptrError {| Error.msg := "received score '" ++ fmt_f score
                               ++ "', while expecting minimum '" ++ fmt_f effective ++ "'";
                  Error.ErrorCodes := None;
                  Error.RequestError := false;
                  Error.ResponseBody := resultBody |} in
  (GoFloat.eq threshold GoFloat.zero = true -> effective = DefaultThreshold)
  /\ (GoFloat.eq threshold GoFloat.zero = false -> effective = threshold)
  /\ (run (confirm json_Unmarshal r recaptcha options) = Returned below
      <-> action_ok /\ SFltb score effective = true)
  /\ (SFltb score effective = true ->
      exists e, run (confirm json_Unmarshal r recaptcha options) = Returned (ptrError e))
  /\ (SFleb effective score = true -> SFltb score effective = false)
  /\ (valid32 score = true -> valid32 effective = true ->
      is_finite score = true -> is_finite effective = true ->
      SFltb score effective = (scaled32 score <? scaled32 effective))
  /\ (action_ok -> SFltb score effective = false ->
      confirm json_Unmarshal r recaptcha options
      = confirm json_Unmarshal (with_Version V2 r) recaptcha options)
  /\ (GoFloat.eq threshold GoFloat.zero = true ->
      confirm json_Unmarshal r recaptcha options
      = confirm json_Unmarshal r recaptcha (with_Threshold GoFloat.zero options)).
Proof.
  intros Ha Hv score threshold effective action_ok below.
  assert (Hfs : Policy.fails r.(ReCAPTCHA.Version) options result 0 Policy.Score
                = SFltb score effective).
  { cbn [Policy.fails]. rewrite Hv. reflexivity. }
  pose proof (run_confirm_answered _ _ options _ _ 0 Ha) as E.
  unfold static_order in E. cbn [find] in E. rewrite Hfs in E.
  split; [ | split; [ | split; [split | split; [ | split; [ | split; [ | split]]]]]].
  - unfold effective, Policy.effectiveThreshold, GoFloat.neq, GoFloat.eq.
    fold threshold. intros ->. reflexivity.
  - unfold effective, Policy.effectiveThreshold, GoFloat.neq, GoFloat.eq.
    fold threshold. intros ->. reflexivity.
  - intros Hrun.
    destruct (confirm_rejection _ _ _ _ _ _ Ha Hrun) as (c & el & He & Hf).
    change (Policy.rejection recaptcha options resultBody result el Policy.Score
            = Policy.rejection recaptcha options resultBody result el c) in He.
    apply rejection_kind in He. subst c.
    cbn [Policy.fails] in Hf. rewrite Hv in Hf. split; [ | exact Hf].
    destruct (Policy.fails (ReCAPTCHA.Version r) options result 0 Policy.Action) eqn:Hfa.
    + cbv iota beta in E. rewrite E in Hrun.
      assert (Hk : Policy.rejection recaptcha options resultBody result 0 Policy.Action
                   = Policy.rejection recaptcha options resultBody result 0 Policy.Score)
        by (change (Returned (ptrError (Policy.rejection recaptcha options resultBody result
                                                        0 Policy.Action))
                    = Returned (ptrError (Policy.rejection recaptcha options resultBody result
                                                           0 Policy.Score))) in Hrun;
            congruence).
      apply rejection_kind in Hk. discriminate Hk.
    + rewrite Hv in Hfa. exact (action_passed _ _ _ Hfa).
  - intros [Hact Hlt].
    rewrite E, (action_passes _ _ _ 0 Hact), Hlt. reflexivity.
  - intros Hlt. rewrite E, Hlt.
    destruct (Policy.fails (ReCAPTCHA.Version r) options result 0 Policy.Action);
      eexists; reflexivity.
  - apply SFleb_not_SFltb.
  - apply SFltb_scaled32.
  - intros Hact Hnot.
    apply (confirm_gated_pass _ _ _ _ _ 0 Ha (action_passes _ _ _ 0 Hact)). congruence.
  - unfold GoFloat.eq. fold threshold. intros Hz.
    unfold confirm, with_Threshold, GoFloat.neq, GoFloat.eq.
    cbn [VerifyOption.Hostname VerifyOption.ApkPackageName VerifyOption.ResponseTime
         VerifyOption.Action VerifyOption.Threshold].
    fold threshold. rewrite Hz.
    change (SFeqb GoFloat.zero GoFloat.zero) with true.
    reflexivity.
Qed.

(** C3, as the code has it: on an answered request that reaches the
    remote-error-codes step (no version-gated check fails), [confirm] rejects
    at that step exactly when the decoded code list is not nil, be it empty
    or not and whatever the success flag; the rejection carries the remote
    list as it is and the raw body. *)
Theorem remote_error_codes r recaptcha options resultBody result d :
  answered json_Unmarshal r recaptcha resultBody result ->
  Policy.fails r.(ReCAPTCHA.Version) options result d Policy.Action = false ->
  Policy.fails r.(ReCAPTCHA.Version) options result d Policy.Score = false ->
  let codes := result.(reCHAPTCHAResponse.ErrorCodes) in
  let rejected :=
      ptrError {| Error.msg := "remote error codes: " ++ fmt_v codes;
                  Error.ErrorCodes := codes;
                  Error.RequestError := false;
                  Error.ResponseBody := resultBody |} in
  (codes <> None <-> run (confirm json_Unmarshal r recaptcha options) = Returned rejected)
  /\ (forall e, run (confirm json_Unmarshal r recaptcha options) = Returned (ptrError e) ->
                codes <> None ->
                e.(Error.ErrorCodes) = codes /\ e.(Error.ResponseBody) = resultBody).
Proof.
  intros Ha Hact Hscore codes rejected. subst rejected codes.
  assert (Hpresent : result.(reCHAPTCHAResponse.ErrorCodes) <> None ->
                     run (confirm json_Unmarshal r recaptcha options)
                     = Returned (ptrError (Policy.rejection recaptcha options resultBody result
                                                            d Policy.ErrorCodes))).
  { intros Hc. rewrite (run_confirm_answered _ _ _ _ _ d Ha).
    unfold static_order. cbn [find]. rewrite Hact, Hscore.
    cbn [Policy.fails].
    destruct (reCHAPTCHAResponse.ErrorCodes result); [reflexivity | congruence]. }
  split; [split; [exact Hpresent | ] | ].
  - intros Hrun.
    destruct (confirm_rejection _ _ _ _ _ _ Ha Hrun) as (c & el & He & Hf).
    change (Policy.rejection recaptcha options resultBody result el Policy.ErrorCodes
            = Policy.rejection recaptcha options resultBody result el c) in He.
    apply rejection_kind in He. subst c.
    cbn [Policy.fails] in Hf.
    destruct (reCHAPTCHAResponse.ErrorCodes result); [congruence | discriminate].
  - intros e Hrun Hc. rewrite (Hpresent Hc) in Hrun.
    injection Hrun as <-. split; reflexivity.
Qed.

(** C5: every error an answered [confirm] returns is an [*Error] that is the
    rejection of a failing check: it is not a request error, it carries the
    raw body that was decoded, and its code list is the remote one for the
    error-codes rejection and nil for every other rejection. *)
Theorem policy_rejection_fields r recaptcha options resultBody result err :
  answered json_Unmarshal r recaptcha resultBody result ->
  run (confirm json_Unmarshal r recaptcha options) = Returned err ->
  err = nil
  \/ exists e c elapsed,
       err = ptrError e
       /\ e = Policy.rejection recaptcha options resultBody result elapsed c
       /\ Policy.fails r.(ReCAPTCHA.Version) options result elapsed c = true
       /\ e.(Error.RequestError) = false
       /\ e.(Error.ResponseBody) = resultBody
       /\ (c = Policy.ErrorCodes ->
           e.(Error.ErrorCodes) = result.(reCHAPTCHAResponse.ErrorCodes)
           /\ e.(Error.ErrorCodes) <> None)
       /\ (c <> Policy.ErrorCodes -> e.(Error.ErrorCodes) = None).
Proof.
  intros Ha Hrun.
  destruct err as [ | s | e]; [left; reflexivity | | ].
  - exfalso. revert Hrun. rewrite (run_confirm_answered _ _ _ _ _ 0 Ha).
    destruct (find _ static_order); [discriminate | ].
    destruct (Z.eqb _ 0); [discriminate | ].
    destruct (ReCAPTCHA.horloge r); [ | discriminate].
    cbv zeta. destruct (Z.ltb _ _); discriminate.
  - right. destruct (confirm_rejection _ _ _ _ _ _ Ha Hrun) as (c & el & He & Hf).
    exists e, c, el. subst e.
    split; [reflexivity | ]. split; [reflexivity | ]. split; [exact Hf | ].
    split; [reflexivity | ]. split; [reflexivity | ]. split.
    + intros ->. cbn [Policy.fails] in Hf.
      cbn [Policy.rejection Error.ErrorCodes]. split; [reflexivity | ].
      destruct (reCHAPTCHAResponse.ErrorCodes result); discriminate.
    + intros Hc. destruct c; try reflexivity. congruence.
Qed.

(** C9: an answered request with a false success flag that reaches the
    success-flag step (no version-gated check fails, no remote code list) is
    rejected; the two rejections differ in their message alone, chosen by
    whether the request carries a remote address: same class, same raw body,
    no codes. *)
Theorem success_flag_rejection r recaptcha options resultBody result d :
  answered json_Unmarshal r recaptcha resultBody result ->
  Policy.fails r.(ReCAPTCHA.Version) options result d Policy.Action = false ->
  Policy.fails r.(ReCAPTCHA.Version) options result d Policy.Score = false ->
  result.(reCHAPTCHAResponse.ErrorCodes) = None ->
  result.(reCHAPTCHAResponse.Success) = false ->
  run (confirm json_Unmarshal r recaptcha options)
  = Returned (ptrError
      {| Error.msg := if String.eqb recaptcha.(reCHAPTCHARequest.RemoteIP) ""
                      then "invalid challenge solution"
                      else "invalid challenge solution or remote IP";
         Error.ErrorCodes := None;
         Error.RequestError := false;
         Error.ResponseBody := resultBody |}).
Proof.
  intros Ha Hact Hscore Hcodes Hsuccess.
  rewrite (run_confirm_answered _ _ _ _ _ d Ha).
  unfold static_order. cbn [find]. rewrite Hact, Hscore.
  cbn [Policy.fails]. rewrite Hcodes, Hsuccess. reflexivity.
Qed.

Lemma find_static_none version options result d :
  (forall c, In c static_order -> Policy.fails version options result d c = false) ->
  find (Policy.fails version options result d) static_order = None.
Proof.
  intros H. unfold static_order in *. cbn [find].
  rewrite !H by (cbn [In]; tauto). reflexivity.
Qed.

Lemma Seconds_8 : fmt_f (Seconds (8 * Second)) = "8.000000".
Proof. vm_compute. reflexivity. Qed.

Lemma Seconds_5 : fmt_f (Seconds (5 * Second)) = "5.000000".
Proof. vm_compute. reflexivity. Qed.

(** C8: on an answered request that passes every earlier check, with a time
    source: when [ResponseTime] is not zero the clock is asked once, for the
    time since the challenge timestamp, and [confirm] rejects exactly when
    that time is strictly greater than [ResponseTime], the message giving
    both in seconds with six decimals (8s against 5s gives 8.000000 and
    5.000000; 1s against 5s is accepted); when [ResponseTime] is zero the
    clock is not asked and the request is accepted. *)
Theorem response_time_bound r recaptcha options resultBody result h :
  answered json_Unmarshal r recaptcha resultBody result ->
  r.(ReCAPTCHA.horloge) = Some h ->
  (forall c, c <> Policy.ResponseTime ->
             Policy.fails r.(ReCAPTCHA.Version) options result
                          (Since h result.(reCHAPTCHAResponse.ChallengeTS)) c = false) ->
  let ts := result.(reCHAPTCHAResponse.ChallengeTS) in
  let elapsed := Since h ts in
  let bound := options.(VerifyOption.ResponseTime) in
  let over (message : string) :=
      ptrError {| Error.msg := message;
                  Error.ErrorCodes := None;
                  Error.RequestError := false;
                  Error.ResponseBody := resultBody |} in
  (bound <> 0 ->
   trace (confirm json_Unmarshal r recaptcha options) = answered_trace r recaptcha [EvSince ts]
   /\ (bound < elapsed <->
       run (confirm json_Unmarshal r recaptcha options)
       = Returned (over ("time spent in resolving challenge '" ++ fmt_f (Seconds elapsed)
                         ++ "s', while expecting maximum '" ++ fmt_f (Seconds bound) ++ "s'")))
   /\ (elapsed <= bound <->
       run (confirm json_Unmarshal r recaptcha options) = Returned nil))
  /\ (bound = 0 ->
      trace (confirm json_Unmarshal r recaptcha options) = answered_trace r recaptcha []
      /\ run (confirm json_Unmarshal r recaptcha options) = Returned nil)
  /\ (elapsed = 8 * Second -> bound = 5 * Second ->
      run (confirm json_Unmarshal r recaptcha options)
      = Returned (over "time spent in resolving challenge '8.000000s', while expecting maximum '5.000000s'"))
  /\ (elapsed = 1 * Second -> bound = 5 * Second ->
      run (confirm json_Unmarshal r recaptcha options) = Returned nil).
Proof.
  intros Ha Hh Hpass ts elapsed bound over.
  pose proof (confirm_answered _ _ _ options _ _ elapsed Ha) as E.
  rewrite find_static_none, Hh in E
    by (intros c Hin; apply Hpass; intros ->; cbn [static_order In] in Hin;
        repeat (destruct Hin as [Hin | Hin]; [discriminate Hin | ]); contradiction).
  cbv zeta in E.
  fold ts in E. fold elapsed in E. fold bound in E.
  rewrite E. clear E.
  split; [ | split; [ | split]].
  - intros Hb. apply Z.eqb_neq in Hb. rewrite Hb.
    split; [reflexivity | ].
    unfold trace, run, fst, snd.
    destruct (Z.ltb_spec bound elapsed) as [Hlt | Hge]; split; split;
      try reflexivity; try discriminate; intros; lia.
  - intros Hb. rewrite Hb. cbn [Z.eqb]. split; reflexivity.
  - intros He Hb. rewrite Hb, He.
    change (5 * Second =? 0) with false. change (5 * Second <? 8 * Second) with true.
    unfold run, snd, Policy.rejection, Policy.message, over.
    cbn [VerifyOption.ResponseTime]. fold bound. rewrite Hb, Seconds_8, Seconds_5.
    reflexivity.
  - intros He Hb. rewrite Hb, He. reflexivity.
Qed.

(** C2, as the code has it: [Verify] evaluates with the zero options.  On an
    answered request it applies the remote-error-codes check and the
    success-flag check, preceded, when the engine's version is V3, by the
    score check against the default threshold; no action, hostname,
    app-package or response-time check is applied and the clock is never
    asked.  For any version other than V3 only steps 2 and 3 apply. *)
Theorem verify_zero_options r challengeResponse resultBody result :
  let recaptcha := {| reCHAPTCHARequest.Secret := r.(ReCAPTCHA.Secret);
                      reCHAPTCHARequest.Response := challengeResponse;
                      reCHAPTCHARequest.RemoteIP := "" |} in
  answered json_Unmarshal r recaptcha resultBody result ->
  let score := result.(reCHAPTCHAResponse.Score) in
  let below :=
      ptrError {| Error.msg := "received score '" ++ fmt_f score
                               ++ "', while expecting minimum '" ++ fmt_f DefaultThreshold
                               ++ "'";
                  Error.ErrorCodes := None;
                  Error.RequestError := false;
                  Error.ResponseBody := resultBody |} in
  run (Verify json_Unmarshal r challengeResponse)
  = Returned (if Z.eqb r.(ReCAPTCHA.Version) V3 && SFltb score DefaultThreshold
              then below
              else steps_2_3 recaptcha resultBody result)
  /\ trace (Verify json_Unmarshal r challengeResponse) = answered_trace r recaptcha []
  /\ consults_clock (trace (Verify json_Unmarshal r challengeResponse)) = false
  /\ (r.(ReCAPTCHA.Version) <> V3 ->
      run (Verify json_Unmarshal r challengeResponse)
      = Returned (steps_2_3 recaptcha resultBody result)).
Proof.
  intros recaptcha Ha score below.
  assert (E : Verify json_Unmarshal r challengeResponse =
              (answered_trace r recaptcha [],
               Return (if Z.eqb r.(ReCAPTCHA.Version) V3 && SFltb score DefaultThreshold
                       then below
                       else steps_2_3 recaptcha resultBody result))).
  { unfold Verify. fold recaptcha.
    rewrite (confirm_answered _ _ _ VerifyOption.zero _ _ 0 Ha).
    unfold steps_2_3, static_order, below, score. cbn [find].
    cbn [Policy.fails VerifyOption.zero VerifyOption.Action VerifyOption.Hostname
         VerifyOption.ApkPackageName VerifyOption.ResponseTime String.eqb negb andb Z.eqb].
    rewrite !andb_false_r.
    change (Policy.effectiveThreshold VerifyOption.zero) with DefaultThreshold.
    unfold GoFloat.gt.
    destruct (Z.eqb (ReCAPTCHA.Version r) V3); cbn [andb];
      [destruct (SFltb _ DefaultThreshold); [reflexivity | ] | ];
      destruct (reCHAPTCHAResponse.ErrorCodes result); cbn [is_nil negb];
        try reflexivity;
      destruct (reCHAPTCHAResponse.Success result); reflexivity. }
  rewrite E. split; [reflexivity | split; [reflexivity | split; [reflexivity | ]]].
  intros Hv. apply Z.eqb_neq in Hv. rewrite Hv. reflexivity.
Qed.

(** C6: with a client in place, every failure of the transport phase comes
    back as an [*Error] whose [RequestError] is true.  A failed POST gives
    the transport error's text inside the message and no body; a body that
    cannot be read gives the same class, again with no body; a body that does
    not decode gives the same class with the raw body attached.  In each
    case, and in every other, [confirm] posts exactly once. *)
Theorem transport_failures r recaptcha options c :
  r.(ReCAPTCHA.client) = Some c ->
  let url := r.(ReCAPTCHA.ReCAPTCHALink) in
  let post := EvPostForm url (request_form recaptcha) in
  let failure (message body : string) :=
      Return (ptrError {| Error.msg := message;
                          Error.ErrorCodes := None;
                          Error.RequestError := true;
                          Error.ResponseBody := body |}) in
  (forall err,
      PostForm c url (request_form recaptcha) = inl err ->
      confirm json_Unmarshal r recaptcha options
      = ([post], failure ("error posting to recaptcha endpoint: '" ++ err ++ "'") ""))
  /\ (forall err,
         PostForm c url (request_form recaptcha) = inr (ReadFails err) ->
         confirm json_Unmarshal r recaptcha options
         = ([post; EvReadAll; EvClose],
            failure ("couldn't read response body: '" ++ err ++ "'") ""))
  /\ (forall resultBody err,
         PostForm c url (request_form recaptcha) = inr (ReadsAll resultBody) ->
         json_Unmarshal resultBody = inl err ->
         confirm json_Unmarshal r recaptcha options
         = ([post; EvReadAll; EvClose],
            failure ("invalid response body json: '" ++ err ++ "'") resultBody))
  /\ count_posts (trace (confirm json_Unmarshal r recaptcha options)) = 1%nat.
Proof.
  intros Hc url post failure.
  assert (Hform :
            @Logic.eq Values
            (if negb (String.eqb recaptcha.(reCHAPTCHARequest.RemoteIP) "")
             then [("secret", [recaptcha.(reCHAPTCHARequest.Secret)]);
                   ("remoteip", [recaptcha.(reCHAPTCHARequest.RemoteIP)]);
                   ("response", [recaptcha.(reCHAPTCHARequest.Response)])]
             else [("secret", [recaptcha.(reCHAPTCHARequest.Secret)]);
                   ("response", [recaptcha.(reCHAPTCHARequest.Response)])])
            (request_form recaptcha)).
  { unfold request_form. destruct (String.eqb _ ""); reflexivity. }
  assert (H1 : forall err,
             PostForm c url (request_form recaptcha) = inl err ->
             confirm json_Unmarshal r recaptcha options
             = ([post], failure ("error posting to recaptcha endpoint: '" ++ err ++ "'") "")).
  { intros err Hp. unfold confirm. rewrite Hform, Hc. cbn [call_PostForm].
    fold url. crunch. rewrite Hp. reflexivity. }
  assert (H2 : forall err,
             PostForm c url (request_form recaptcha) = inr (ReadFails err) ->
             confirm json_Unmarshal r recaptcha options
             = ([post; EvReadAll; EvClose],
                failure ("couldn't read response body: '" ++ err ++ "'") "")).
  { intros err Hp. unfold confirm. rewrite Hform, Hc. cbn [call_PostForm].
    fold url. unfold ReadAll. crunch. rewrite Hp. reflexivity. }
  assert (H3 : forall resultBody err,
             PostForm c url (request_form recaptcha) = inr (ReadsAll resultBody) ->
             json_Unmarshal resultBody = inl err ->
             confirm json_Unmarshal r recaptcha options
             = ([post; EvReadAll; EvClose],
                failure ("invalid response body json: '" ++ err ++ "'") resultBody)).
  { intros resultBody err Hp Hj. unfold confirm. rewrite Hform, Hc. cbn [call_PostForm].
    fold url. unfold ReadAll. crunch. rewrite Hp, Hj. reflexivity. }
  split; [exact H1 | split; [exact H2 | split; [exact H3 | ]]].
  destruct (PostForm c url (request_form recaptcha)) as [err | [err | resultBody]] eqn:Hp.
  - rewrite (H1 err eq_refl). reflexivity.
  - rewrite (H2 err eq_refl). reflexivity.
  - destruct (json_Unmarshal resultBody) as [err | result] eqn:Hj.
    + rewrite (H3 resultBody err eq_refl Hj). reflexivity.
    + assert (Ha : answered json_Unmarshal r recaptcha resultBody result)
        by (exists c; auto).
      rewrite (confirm_answered _ _ _ options _ _ 0 Ha).
      destruct (find _ static_order); [reflexivity | ].
      destruct (Z.eqb _ 0); [reflexivity | ].
      destruct (ReCAPTCHA.horloge r); reflexivity.
Qed.

(** [&http.Client{Timeout: timeout}], the client of [net/http]. *)
Variable http_Client : Duration -> netClient.

(** [time.Since], the wall clock. *)
Variable time_Since : Time -> Duration.

(** C7: [NewReCAPTCHA] with the empty secret returns the configuration error
    and calls nothing; with any other secret it returns no error and an
    engine that holds the secret, the version and the timeout it was given
    and the fixed endpoint, again calling nothing. *)
Theorem NewReCAPTCHA_construction version timeout :
  NewReCAPTCHA http_Client time_Since "" version timeout
  = ([], Return (ReCAPTCHA.zero, errorString "recaptcha secret cannot be blank"))
  /\ forall secret,
       secret <> "" ->
       exists r,
         NewReCAPTCHA http_Client time_Since secret version timeout = ([], Return (r, nil))
         /\ r.(ReCAPTCHA.Secret) = secret
         /\ r.(ReCAPTCHA.Version) = version
         /\ r.(ReCAPTCHA.Timeout) = timeout
         /\ r.(ReCAPTCHA.ReCAPTCHALink) = reCAPTCHALink.
Proof.
  split; [reflexivity | ].
  intros secret Hs. apply String.eqb_neq in Hs.
  eexists. unfold NewReCAPTCHA. rewrite Hs.
  split; [reflexivity | ]. repeat split.
Qed.

End Claims.

(** ** The properties at the fixtures of the test suite *)

Ltac fixture_answered :=
  eexists; split; [reflexivity | split; [reflexivity | vm_compute; reflexivity]].

Lemma score_threshold_witness :
  answered Fixtures.test_Unmarshal Fixtures.low_score_engine Fixtures.mycode
           Fixtures.low_score_body Fixtures.low_score_result
  /\ run (confirm Fixtures.test_Unmarshal Fixtures.low_score_engine Fixtures.mycode
                  VerifyOption.zero)
     = Returned (ptrError
         {| Error.msg := "received score '0.230000', while expecting minimum '0.500000'";
            Error.ErrorCodes := None;
            Error.RequestError := false;
            Error.ResponseBody := Fixtures.low_score_body |}).
Proof.
  assert (Ha : answered Fixtures.test_Unmarshal Fixtures.low_score_engine Fixtures.mycode
                        Fixtures.low_score_body Fixtures.low_score_result)
    by fixture_answered.
  split; [exact Ha | ].
  destruct (score_threshold Fixtures.test_Unmarshal Fixtures.low_score_engine Fixtures.mycode
                            VerifyOption.zero Fixtures.low_score_body
                            Fixtures.low_score_result Ha eq_refl)
    as (_ & _ & Hiff & _).
  apply Hiff. split; [left; reflexivity | vm_compute; reflexivity].
Defined.

(** C2 as stated fails: under V3, [Verify] rejects a successful answer with
    no error codes, which steps 2 and 3 alone accept, because the score 0.23
    is below the default threshold. *)
Lemma verify_applies_default_threshold :
  answered Fixtures.test_Unmarshal Fixtures.low_score_engine Fixtures.mycode
           Fixtures.low_score_body Fixtures.low_score_result
  /\ steps_2_3 Fixtures.mycode Fixtures.low_score_body Fixtures.low_score_result = nil
  /\ run (Verify Fixtures.test_Unmarshal Fixtures.low_score_engine "mycode")
     = Returned (ptrError
         {| Error.msg := "received score '0.230000', while expecting minimum '0.500000'";
            Error.ErrorCodes := None;
            Error.RequestError := false;
            Error.ResponseBody := Fixtures.low_score_body |})
  /\ run (Verify Fixtures.test_Unmarshal Fixtures.low_score_engine "mycode")
     <> Returned (steps_2_3 Fixtures.mycode Fixtures.low_score_body
                            Fixtures.low_score_result).
Proof.
  split; [fixture_answered | split; [ | split]]; try (vm_compute; reflexivity).
  vm_compute. discriminate.
Qed.

Lemma verify_zero_options_witness :
  answered Fixtures.test_Unmarshal Fixtures.failed_engine Fixtures.mycode
           Fixtures.failed_body Fixtures.failed_result
  /\ run (Verify Fixtures.test_Unmarshal Fixtures.failed_engine "mycode")
     = Returned (ptrError
         {| Error.msg := "remote error codes: [invalid-input-response bad-request]";
            Error.ErrorCodes := Some ["invalid-input-response"; "bad-request"];
            Error.RequestError := false;
            Error.ResponseBody := Fixtures.failed_body |}).
Proof.
  assert (Ha : answered Fixtures.test_Unmarshal Fixtures.failed_engine Fixtures.mycode
                        Fixtures.failed_body Fixtures.failed_result)
    by fixture_answered.
  split; [exact Ha | ].
  exact (proj1 (verify_zero_options Fixtures.test_Unmarshal Fixtures.failed_engine "mycode"
                                    Fixtures.failed_body Fixtures.failed_result Ha)).
Defined.

(** C3 as stated fails: a decoded code list that is present but empty is
    rejected at the remote-error-codes step, on a successful answer. *)
Lemma empty_code_list_is_rejected :
  answered Fixtures.test_Unmarshal Fixtures.empty_codes_engine Fixtures.mycode
           Fixtures.empty_codes_body Fixtures.empty_codes_result
  /\ ~ present_and_non_empty Fixtures.empty_codes_result.(reCHAPTCHAResponse.ErrorCodes)
  /\ Fixtures.empty_codes_result.(reCHAPTCHAResponse.Success) = true
  /\ run (confirm Fixtures.test_Unmarshal Fixtures.empty_codes_engine Fixtures.mycode
                  VerifyOption.zero)
     = Returned (ptrError
         {| Error.msg := "remote error codes: []";
            Error.ErrorCodes := Some [];
            Error.RequestError := false;
            Error.ResponseBody := Fixtures.empty_codes_body |}).
Proof.
  split; [fixture_answered | split; [ | split; vm_compute; reflexivity]].
  intros (c & cs & H). discriminate H.
Qed.

Lemma remote_error_codes_witness :
  answered Fixtures.test_Unmarshal Fixtures.failed_engine Fixtures.mycode
           Fixtures.failed_body Fixtures.failed_result
  /\ run (confirm Fixtures.test_Unmarshal Fixtures.failed_engine Fixtures.mycode
                  VerifyOption.zero)
     = Returned (ptrError
         {| Error.msg := "remote error codes: [invalid-input-response bad-request]";
            Error.ErrorCodes := Some ["invalid-input-response"; "bad-request"];
            Error.RequestError := false;
            Error.ResponseBody := Fixtures.failed_body |}).
Proof.
  assert (Ha : answered Fixtures.test_Unmarshal Fixtures.failed_engine Fixtures.mycode
                        Fixtures.failed_body Fixtures.failed_result)
    by fixture_answered.
  split; [exact Ha | ].
  destruct (remote_error_codes Fixtures.test_Unmarshal Fixtures.failed_engine Fixtures.mycode
                               VerifyOption.zero Fixtures.failed_body Fixtures.failed_result 0
                               Ha eq_refl eq_refl) as (Hiff & _).
  apply Hiff. discriminate.
Defined.

Lemma policy_checks_in_order_witness :
  answered Fixtures.test_Unmarshal Fixtures.over_time_engine Fixtures.mycode
           Fixtures.success_body Fixtures.success_result
  /\ run (confirm Fixtures.test_Unmarshal Fixtures.over_time_engine Fixtures.mycode
                  (Fixtures.with_ResponseTime (5 * Second)))
     = Returned (ptrError
         {| Error.msg := "time spent in resolving challenge '8.000000s', while expecting maximum '5.000000s'";
            Error.ErrorCodes := None;
            Error.RequestError := false;
            Error.ResponseBody := Fixtures.success_body |}).
Proof.
  assert (Ha : answered Fixtures.test_Unmarshal Fixtures.over_time_engine Fixtures.mycode
                        Fixtures.success_body Fixtures.success_result)
    by fixture_answered.
  split; [exact Ha | ].
  exact (proj1 (proj2 (policy_checks_in_order Fixtures.test_Unmarshal
                         Fixtures.over_time_engine Fixtures.mycode
                         (Fixtures.with_ResponseTime (5 * Second))
                         Fixtures.success_body Fixtures.success_result Ha)
                      Fixtures.mockClockOverRespenseTime eq_refl)).
Defined.

Lemma policy_rejection_fields_witness :
  answered Fixtures.test_Unmarshal Fixtures.invalid_solution_engine Fixtures.mycode
           Fixtures.invalid_solution_body Fixtures.invalid_solution_result
  /\ run (confirm Fixtures.test_Unmarshal Fixtures.invalid_solution_engine Fixtures.mycode
                  VerifyOption.zero)
     = Returned (ptrError (Policy.rejection Fixtures.mycode VerifyOption.zero
                                            Fixtures.invalid_solution_body
                                            Fixtures.invalid_solution_result 0
                                            Policy.Success))
  /\ (ptrError (Policy.rejection Fixtures.mycode VerifyOption.zero
                                 Fixtures.invalid_solution_body
                                 Fixtures.invalid_solution_result 0 Policy.Success) = nil
      \/ exists e c elapsed,
           ptrError (Policy.rejection Fixtures.mycode VerifyOption.zero
                                      Fixtures.invalid_solution_body
                                      Fixtures.invalid_solution_result 0 Policy.Success)
           = ptrError e
           /\ e = Policy.rejection Fixtures.mycode VerifyOption.zero
                                   Fixtures.invalid_solution_body
                                   Fixtures.invalid_solution_result elapsed c
           /\ Policy.fails V2 VerifyOption.zero Fixtures.invalid_solution_result elapsed c = true
           /\ e.(Error.RequestError) = false
           /\ e.(Error.ResponseBody) = Fixtures.invalid_solution_body
           /\ (c = Policy.ErrorCodes ->
               e.(Error.ErrorCodes)
               = Fixtures.invalid_solution_result.(reCHAPTCHAResponse.ErrorCodes)
               /\ e.(Error.ErrorCodes) <> None)
           /\ (c <> Policy.ErrorCodes -> e.(Error.ErrorCodes) = None)).
Proof.
  assert (Ha : answered Fixtures.test_Unmarshal Fixtures.invalid_solution_engine
                        Fixtures.mycode Fixtures.invalid_solution_body
                        Fixtures.invalid_solution_result)
    by fixture_answered.
  assert (Hrun : run (confirm Fixtures.test_Unmarshal Fixtures.invalid_solution_engine
                              Fixtures.mycode VerifyOption.zero)
                 = Returned (ptrError (Policy.rejection Fixtures.mycode VerifyOption.zero
                                                        Fixtures.invalid_solution_body
                                                        Fixtures.invalid_solution_result 0
                                                        Policy.Success)))
    by (vm_compute; reflexivity).
  split; [exact Ha | split; [exact Hrun | ]].
  exact (policy_rejection_fields Fixtures.test_Unmarshal Fixtures.invalid_solution_engine
           Fixtures.mycode VerifyOption.zero Fixtures.invalid_solution_body
           Fixtures.invalid_solution_result _ Ha Hrun).
Defined.

Lemma transport_failures_witness :
  confirm Fixtures.test_Unmarshal Fixtures.unavailable_engine Fixtures.mycode VerifyOption.zero
  = ([EvPostForm "" [("secret", [""]); ("response", ["mycode"])]],
     Return (ptrError
       {| Error.msg := "error posting to recaptcha endpoint: 'Unable to connect to server'";
          Error.ErrorCodes := None;
          Error.RequestError := true;
          Error.ResponseBody := "" |})).
Proof.
  exact (proj1 (transport_failures Fixtures.test_Unmarshal Fixtures.unavailable_engine
                  Fixtures.mycode VerifyOption.zero Fixtures.mockUnavailableClient eq_refl)
               "Unable to connect to server" eq_refl).
Defined.

Lemma NewReCAPTCHA_construction_witness :
  "my secret" <> ""
  /\ exists r,
       NewReCAPTCHA (fun _ => Fixtures.mockSuccessClientNoOptions) (fun _ => 0)
                    "my secret" V2 (10 * Second)
       = ([], Return (r, nil))
       /\ r.(ReCAPTCHA.Secret) = "my secret"
       /\ r.(ReCAPTCHA.Version) = V2
       /\ r.(ReCAPTCHA.Timeout) = 10 * Second
       /\ r.(ReCAPTCHA.ReCAPTCHALink) = reCAPTCHALink.
Proof.
  assert (Hs : "my secret" <> "") by discriminate.
  split; [exact Hs | ].
  exact (proj2 (NewReCAPTCHA_construction (fun _ => Fixtures.mockSuccessClientNoOptions) (fun _ => 0)
                             V2 (10 * Second)) "my secret" Hs).
Defined.

Lemma response_time_bound_witness :
  answered Fixtures.test_Unmarshal Fixtures.within_time_engine Fixtures.mycode
           Fixtures.success_body Fixtures.success_result
  /\ run (confirm Fixtures.test_Unmarshal Fixtures.within_time_engine Fixtures.mycode
                  (Fixtures.with_ResponseTime (5 * Second)))
     = Returned nil.
Proof.
  assert (Ha : answered Fixtures.test_Unmarshal Fixtures.within_time_engine Fixtures.mycode
                        Fixtures.success_body Fixtures.success_result)
    by fixture_answered.
  split; [exact Ha | ].
  assert (Hpass : forall c, c <> Policy.ResponseTime ->
                            Policy.fails Fixtures.within_time_engine.(ReCAPTCHA.Version)
                                         (Fixtures.with_ResponseTime (5 * Second))
                                         Fixtures.success_result
                                         (Since Fixtures.mockClockWithinRespenseTime
                                                Fixtures.success_result.(reCHAPTCHAResponse.ChallengeTS))
                                         c = false).
  { intros c Hc. destruct c; reflexivity. }
  destruct (response_time_bound Fixtures.test_Unmarshal Fixtures.within_time_engine
              Fixtures.mycode (Fixtures.with_ResponseTime (5 * Second))
              Fixtures.success_body Fixtures.success_result
              Fixtures.mockClockWithinRespenseTime Ha eq_refl Hpass)
    as (_ & _ & _ & Hone).
  exact (Hone eq_refl eq_refl).
Defined.

Lemma success_flag_rejection_witness :
  answered Fixtures.test_Unmarshal Fixtures.invalid_solution_engine Fixtures.mycode
           Fixtures.invalid_solution_body Fixtures.invalid_solution_result
  /\ run (confirm Fixtures.test_Unmarshal Fixtures.invalid_solution_engine Fixtures.mycode
                  VerifyOption.zero)
     = Returned (ptrError
         {| Error.msg := "invalid challenge solution";
            Error.ErrorCodes := None;
            Error.RequestError := false;
            Error.ResponseBody := Fixtures.invalid_solution_body |}).
Proof.
  assert (Ha : answered Fixtures.test_Unmarshal Fixtures.invalid_solution_engine
                        Fixtures.mycode Fixtures.invalid_solution_body
                        Fixtures.invalid_solution_result)
    by fixture_answered.
  split; [exact Ha | ].
  exact (success_flag_rejection Fixtures.test_Unmarshal Fixtures.invalid_solution_engine
           Fixtures.mycode VerifyOption.zero Fixtures.invalid_solution_body
           Fixtures.invalid_solution_result 0 Ha eq_refl eq_refl eq_refl eq_refl).
Defined.

Lemma non_V3_version_is_V2_witness :
  Fixtures.unknown_version_engine.(ReCAPTCHA.Version) <> V3
  /\ confirm Fixtures.test_Unmarshal Fixtures.unknown_version_engine Fixtures.mycode
             VerifyOption.zero
     = confirm Fixtures.test_Unmarshal (with_Version V2 Fixtures.unknown_version_engine)
               Fixtures.mycode VerifyOption.zero
  /\ answered Fixtures.test_Unmarshal Fixtures.unknown_version_engine Fixtures.mycode
              Fixtures.low_score_body Fixtures.low_score_result
  /\ run (confirm Fixtures.test_Unmarshal Fixtures.unknown_version_engine Fixtures.mycode
                  (with_Threshold (float32_of_ratio 6 10)
                                  (with_Action "homepage" VerifyOption.zero)))
     = Returned nil.
Proof.
  assert (Hv : Fixtures.unknown_version_engine.(ReCAPTCHA.Version) <> V3) by discriminate.
  assert (Ha : answered Fixtures.test_Unmarshal Fixtures.unknown_version_engine
                        Fixtures.mycode Fixtures.low_score_body Fixtures.low_score_result)
    by fixture_answered.
  split; [exact Hv | split; [ | split; [exact Ha | ]]].
  - exact (proj1 (non_V3_version_is_V2 Fixtures.test_Unmarshal
                    Fixtures.unknown_version_engine Fixtures.mycode VerifyOption.zero Hv)).
  - destruct (non_V3_version_is_V2 Fixtures.test_Unmarshal Fixtures.unknown_version_engine
                Fixtures.mycode
                (with_Threshold (float32_of_ratio 6 10)
                                (with_Action "homepage" VerifyOption.zero)) Hv)
      as (_ & _ & _ & _ & _ & Haccept).
    exact (Haccept Fixtures.low_score_body Fixtures.low_score_result Ha
                   eq_refl eq_refl (or_introl eq_refl) (or_introl eq_refl) eq_refl).
Defined.

(** ** Agreement with the package's tests

    The model run on the scenarios of the test suite gives what the tests
    assert. *)

Example TestV3VerifyWithThresholdOption_pass :
  run (VerifyWithOptions Fixtures.test_Unmarshal
         (Fixtures.engine Fixtures.mockV3SuccessClientWithThresholdOption V3 None) "mycode"
         (with_Threshold (float32_of_ratio 6 10) VerifyOption.zero))
  = Returned nil.
Proof. vm_compute. reflexivity. Qed.

Example TestV3VerifyWithThresholdOption_fail :
  run (VerifyWithOptions Fixtures.test_Unmarshal Fixtures.low_score_engine "mycode"
         (with_Threshold (float32_of_ratio 6 10) VerifyOption.zero))
  = Returned (ptrError
      {| Error.msg := "received score '0.230000', while expecting minimum '0.600000'";
         Error.ErrorCodes := None;
         Error.RequestError := false;
         Error.ResponseBody := Fixtures.low_score_body |}).
Proof. vm_compute. reflexivity. Qed.

Example TestV3VerifyWithThresholdOption_default :
  run (VerifyWithOptions Fixtures.test_Unmarshal Fixtures.low_score_engine "mycode"
         VerifyOption.zero)
  = Returned (ptrError
      {| Error.msg := "received score '0.230000', while expecting minimum '0.500000'";
         Error.ErrorCodes := None;
         Error.RequestError := false;
         Error.ResponseBody := Fixtures.low_score_body |}).
Proof. vm_compute. reflexivity. Qed.

Example TestV3VerifyWithThresholdOption_boundary :
  run (VerifyWithOptions Fixtures.test_Unmarshal Fixtures.low_score_engine "mycode"
         (with_Threshold (float32_of_ratio 23 100) VerifyOption.zero))
  = Returned nil.
Proof. vm_compute. reflexivity. Qed.

Example TestV2VerifyWithV3IgnoreOptions :
  run (VerifyWithOptions Fixtures.test_Unmarshal
         (Fixtures.engine Fixtures.mockV3SuccessClientWithThresholdOption V2 None) "mycode"
         (with_Threshold (float32_of_ratio 5 10) (with_Action "homepage" VerifyOption.zero)))
  = Returned nil.
Proof. vm_compute. reflexivity. Qed.

Example TestVerifyWithResponseOption_over :
  confirm Fixtures.test_Unmarshal Fixtures.over_time_engine Fixtures.mycode
          (Fixtures.with_ResponseTime (5 * Second))
  = ([EvPostForm "" [("secret", [""]); ("response", ["mycode"])];
      EvReadAll; EvSince Fixtures.challenge_ts; EvClose],
     Return (ptrError
       {| Error.msg := "time spent in resolving challenge '8.000000s', while expecting maximum '5.000000s'";
          Error.ErrorCodes := None;
          Error.RequestError := false;
          Error.ResponseBody := Fixtures.success_body |})).
Proof. vm_compute. reflexivity. Qed.

Example TestConfirm_invalid_json :
  run (confirm Fixtures.test_Unmarshal (Fixtures.engine Fixtures.mockInvalidClient V2 None)
               Fixtures.mycode VerifyOption.zero)
  = Returned (ptrError
      {| Error.msg := "invalid response body json: 'invalid character 'b' looking for beginning of value'";
         Error.ErrorCodes := None;
         Error.RequestError := true;
         Error.ResponseBody := " bogus json " |}).
Proof. vm_compute. reflexivity. Qed.

Example TestConfirm_read_error :
  run (confirm Fixtures.test_Unmarshal
               (Fixtures.engine Fixtures.mockInvalidReaderClient V2 None)
               Fixtures.mycode VerifyOption.zero)
  = Returned (ptrError
      {| Error.msg := "couldn't read response body: 'read error'";
         Error.ErrorCodes := None;
         Error.RequestError := true;
         Error.ResponseBody := "" |}).
Proof. vm_compute. reflexivity. Qed.

(** A nil clock panics once the response-time check is reached. *)
Example nil_clock_panics :
  run (confirm Fixtures.test_Unmarshal
               (Fixtures.engine Fixtures.mockSuccessClientNoOptions V2 None)
               Fixtures.mycode (Fixtures.with_ResponseTime (5 * Second)))
  = Panicked.
Proof. vm_compute. reflexivity. Qed.

(** ** Beyond the policy: every path of [confirm] and the entry points *)

Lemma option_met_iff (wanted got : string) :
  negb (String.eqb wanted "") && negb (String.eqb wanted got) = false
  <-> option_met wanted got.
Proof.
  unfold option_met.
  destruct (String.eqb_spec wanted "") as [E | E];
    destruct (String.eqb_spec wanted got) as [G | G]; cbn; intuition congruence.
Qed.

Lemma SFltb_nan_r (x : spec_float) : SFltb x S754_nan = false.
Proof. destruct x; reflexivity. Qed.

(** Against a zero score the effective threshold wins exactly when the
    caller's threshold is zero or more. *)
Lemma zero_score_below (s : bool) (options : VerifyOption.t) :
  SFltb (S754_zero s) (Policy.effectiveThreshold options)
  = SFleb GoFloat.zero options.(VerifyOption.Threshold).
Proof.
  unfold Policy.effectiveThreshold, GoFloat.neq.
  destruct (VerifyOption.Threshold options) as [[ | ] | [ | ] | | [ | ] m e];
    destruct s; reflexivity.
Qed.

Section Coverage.

Variable json_Unmarshal : string -> string + reCHAPTCHAResponse.t.

Lemma confirm_nil_client r recaptcha options :
  r.(ReCAPTCHA.client) = None ->
  confirm json_Unmarshal r recaptcha options = ([], Panic).
Proof. intros H. unfold confirm. rewrite H. reflexivity. Qed.

(** The four ways a call with a client can go: the POST fails, the body
    cannot be read, the body does not decode, or the request is answered. *)
Lemma confirm_transport r recaptcha options c :
  r.(ReCAPTCHA.client) = Some c ->
  let url := r.(ReCAPTCHA.ReCAPTCHALink) in
  let post := EvPostForm url (request_form recaptcha) in
  let failure (message body : string) :=
      Return (ptrError {| Error.msg := message;
                          Error.ErrorCodes := None;
                          Error.RequestError := true;
                          Error.ResponseBody := body |}) in
  (exists err,
      PostForm c url (request_form recaptcha) = inl err
      /\ confirm json_Unmarshal r recaptcha options
         = ([post], failure ("error posting to recaptcha endpoint: '" ++ err ++ "'") ""))
  \/ (exists err,
         PostForm c url (request_form recaptcha) = inr (ReadFails err)
         /\ confirm json_Unmarshal r recaptcha options
            = ([post; EvReadAll; EvClose],
               failure ("couldn't read response body: '" ++ err ++ "'") ""))
  \/ (exists resultBody err,
         PostForm c url (request_form recaptcha) = inr (ReadsAll resultBody)
         /\ json_Unmarshal resultBody = inl err
         /\ confirm json_Unmarshal r recaptcha options
            = ([post; EvReadAll; EvClose],
               failure ("invalid response body json: '" ++ err ++ "'") resultBody))
  \/ (exists resultBody result,
         PostForm c url (request_form recaptcha) = inr (ReadsAll resultBody)
         /\ answered json_Unmarshal r recaptcha resultBody result).
Proof.
  intros Hc url post failure.
  assert (Hform :
            @Logic.eq Values
            (if negb (String.eqb recaptcha.(reCHAPTCHARequest.RemoteIP) "")
             then [("secret", [recaptcha.(reCHAPTCHARequest.Secret)]);
                   ("remoteip", [recaptcha.(reCHAPTCHARequest.RemoteIP)]);
                   ("response", [recaptcha.(reCHAPTCHARequest.Response)])]
             else [("secret", [recaptcha.(reCHAPTCHARequest.Secret)]);
                   ("response", [recaptcha.(reCHAPTCHARequest.Response)])])
            (request_form recaptcha)).
  { unfold request_form. destruct (String.eqb _ ""); reflexivity. }
  destruct (PostForm c url (request_form recaptcha)) as [err | [err | resultBody]] eqn:Hp.
  - left. exists err. split; [reflexivity | ].
    unfold confirm. rewrite Hform, Hc. cbn [call_PostForm].
    fold url. crunch. rewrite Hp. reflexivity.
  - right; left. exists err. split; [reflexivity | ].
    unfold confirm. rewrite Hform, Hc. cbn [call_PostForm].
    fold url. unfold ReadAll. crunch. rewrite Hp. reflexivity.
  - destruct (json_Unmarshal resultBody) as [err | result] eqn:Hj.
    + right; right; left. exists resultBody, err. split; [reflexivity | split; [exact Hj | ]].
      unfold confirm. rewrite Hform, Hc. cbn [call_PostForm].
      fold url. unfold ReadAll. crunch. rewrite Hp, Hj. reflexivity.
    + right; right; right. exists resultBody, result. split; [reflexivity | ].
      exists c. auto.
Qed.

Lemma answered_unique r recaptcha resultBody result resultBody' result' :
  answered json_Unmarshal r recaptcha resultBody result ->
  answered json_Unmarshal r recaptcha resultBody' result' ->
  resultBody = resultBody' /\ result = result'.
Proof.
  intros (c & Hc & Hp & Hj) (c' & Hc' & Hp' & Hj').
  assert (c = c') by congruence. subst c'.
  assert (resultBody = resultBody') by congruence. subst resultBody'.
  split; [reflexivity | congruence].
Qed.

(** The trace of an answered call. *)
Lemma trace_answered r recaptcha options resultBody result :
  answered json_Unmarshal r recaptcha resultBody result ->
  trace (confirm json_Unmarshal r recaptcha options)
  = answered_trace r recaptcha
      (match find (Policy.fails r.(ReCAPTCHA.Version) options result 0) static_order with
       | Some _ => []
       | None =>
         if Z.eqb options.(VerifyOption.ResponseTime) 0 then []
         else match r.(ReCAPTCHA.horloge) with
              | None => []
              | Some _ => [EvSince result.(reCHAPTCHAResponse.ChallengeTS)]
              end
       end).
Proof.
  intros Ha. rewrite (confirm_answered _ _ _ options _ _ 0 Ha).
  destruct (find _ static_order); [reflexivity | ].
  destruct (Z.eqb _ 0); [reflexivity | ].
  destruct (ReCAPTCHA.horloge r); reflexivity.
Qed.

(** A rejection of a check that needs no clock is returned exactly when the
    check fails and none before it does. *)
Lemma rejection_iff_fails r recaptcha options resultBody result c :
  answered json_Unmarshal r recaptcha resultBody result ->
  In c static_order ->
  (forall c', (rank c' < rank c)%nat ->
              Policy.fails r.(ReCAPTCHA.Version) options result 0 c' = false) ->
  run (confirm json_Unmarshal r recaptcha options)
  = Returned (ptrError (Policy.rejection recaptcha options resultBody result 0 c))
  <-> Policy.fails r.(ReCAPTCHA.Version) options result 0 c = true.
Proof.
  intros Ha Hin Hbefore. split.
  - intros Hrun.
    destruct (confirm_rejection _ _ _ _ _ _ _ Ha Hrun) as (c' & el & He & Hf).
    apply rejection_kind in He. subst c'.
    rewrite <- Hf. apply fails_static.
    intros ->. cbn [static_order In] in Hin.
    repeat (destruct Hin as [Hin | Hin]; [discriminate Hin | ]). contradiction.
  - intros Hc. rewrite (run_confirm_answered _ _ _ _ _ _ 0 Ha).
    rewrite (find_earliest_static _ c Hin Hc Hbefore). reflexivity.
Qed.

(** *** The entry points *)

Lemma VerifyWithOptions_confirm r challengeResponse options :
  VerifyWithOptions json_Unmarshal r challengeResponse options
  = confirm json_Unmarshal r
            (verify_request r challengeResponse options.(VerifyOption.RemoteIP)) options.
Proof.
  unfold VerifyWithOptions, verify_request.
  destruct (String.eqb_spec (VerifyOption.RemoteIP options) "") as [E | E];
    [rewrite E | ]; reflexivity.
Qed.

(** X1: [Verify] is [VerifyWithOptions] with the zero options, and
    [VerifyWithOptions] is [confirm] on the request made of the engine's
    secret, the token and the options' remote address, so that two option
    sets that differ in nothing give the same call whichever branch builds
    the request. *)
Theorem entry_points_compose r challengeResponse options :
  Verify json_Unmarshal r challengeResponse
  = VerifyWithOptions json_Unmarshal r challengeResponse VerifyOption.zero
  /\ VerifyWithOptions json_Unmarshal r challengeResponse options
     = confirm json_Unmarshal r
               (verify_request r challengeResponse options.(VerifyOption.RemoteIP)) options.
Proof.
  split; [reflexivity | apply VerifyWithOptions_confirm].
Qed.

(** X2: with a client in place, [VerifyWithOptions] posts once, first of
    all, to the engine's endpoint, a form that holds the engine's secret and
    the token as given, and the remote address exactly when the options carry
    a non-empty one. *)
Theorem posted_form r challengeResponse options c :
  r.(ReCAPTCHA.client) = Some c ->
  let ip := options.(VerifyOption.RemoteIP) in
  let form :=
      if String.eqb ip ""
      then [("secret", [r.(ReCAPTCHA.Secret)]); ("response", [challengeResponse])]
      else [("secret", [r.(ReCAPTCHA.Secret)]); ("remoteip", [ip]);
            ("response", [challengeResponse])] in
  exists rest,
    trace (VerifyWithOptions json_Unmarshal r challengeResponse options)
    = EvPostForm r.(ReCAPTCHA.ReCAPTCHALink) form :: rest
    /\ count_posts rest = 0%nat.
Proof.
  intros Hc ip form.
  rewrite VerifyWithOptions_confirm.
  assert (Hform : request_form (verify_request r challengeResponse ip) = form)
    by reflexivity.
  fold ip.
  destruct (confirm_transport r (verify_request r challengeResponse ip) options c Hc)
    as [(err & _ & E) | [(err & _ & E) | [(b & err & _ & _ & E) | (b & res & _ & Ha)]]].
  - rewrite E, Hform. eexists. split; reflexivity.
  - rewrite E, Hform. eexists. split; reflexivity.
  - rewrite E, Hform. eexists. split; reflexivity.
  - rewrite (trace_answered _ _ options _ _ Ha). unfold answered_trace. rewrite Hform.
    eexists. split; [reflexivity | ].
    destruct (find _ static_order); [reflexivity | ].
    destruct (Z.eqb _ 0); [reflexivity | ].
    destruct (ReCAPTCHA.horloge r); reflexivity.
Qed.

(** X3: an engine without a client panics before it calls anything, in both
    entry points; the engine that [NewReCAPTCHA] hands back together with its
    error is such an engine. *)
Theorem engine_without_client_panics :
  (forall r challengeResponse options,
      r.(ReCAPTCHA.client) = None ->
      Verify json_Unmarshal r challengeResponse = ([], Panic)
      /\ VerifyWithOptions json_Unmarshal r challengeResponse options = ([], Panic))
  /\ forall http_Client time_Since version timeout challengeResponse options,
      exists r err,
        NewReCAPTCHA http_Client time_Since "" version timeout = ([], Return (r, err))
        /\ err = errorString "recaptcha secret cannot be blank"
        /\ VerifyWithOptions json_Unmarshal r challengeResponse options = ([], Panic).
Proof.
  assert (H : forall r challengeResponse options,
             r.(ReCAPTCHA.client) = None ->
             Verify json_Unmarshal r challengeResponse = ([], Panic)
             /\ VerifyWithOptions json_Unmarshal r challengeResponse options = ([], Panic)).
  { intros r challengeResponse options Hc. split.
    - apply confirm_nil_client. exact Hc.
    - rewrite VerifyWithOptions_confirm.
      apply confirm_nil_client. exact Hc. }
  split; [exact H | ].
  intros http_Client time_Since version timeout challengeResponse options.
  exists ReCAPTCHA.zero, (errorString "recaptcha secret cannot be blank").
  split; [reflexivity | split; [reflexivity | ]].
  apply (H ReCAPTCHA.zero challengeResponse options). reflexivity.
Qed.

(** *** What [confirm] does to the outside world *)

(** X4: with a client in place, whatever the answer and the options: when
    the POST fails nothing else is called; when it gives a response, the body
    is read once and closed once, last of all, also on the path that panics,
    and between the two the clock is asked at most once. *)
Theorem body_read_and_closed_once r recaptcha options c :
  r.(ReCAPTCHA.client) = Some c ->
  let url := r.(ReCAPTCHA.ReCAPTCHALink) in
  let post := EvPostForm url (request_form recaptcha) in
  let t := trace (confirm json_Unmarshal r recaptcha options) in
  (forall err, PostForm c url (request_form recaptcha) = inl err -> t = [post])
  /\ (forall body,
         PostForm c url (request_form recaptcha) = inr body ->
         exists mid,
           t = (post :: EvReadAll :: mid ++ [EvClose])%list
           /\ (mid = [] \/ exists ts, mid = [EvSince ts])
           /\ count_reads t = 1%nat
           /\ count_closes t = 1%nat
           /\ (count_clock t <= 1)%nat).
Proof.
  intros Hc url post t. unfold t.
  destruct (confirm_transport r recaptcha options c Hc)
    as [(err & Hp & E) | [(err & Hp & E) | [(b & err & Hp & _ & E) | (b & res & Hp & Ha)]]];
    fold url in Hp; split.
  - intros err' _. rewrite E. reflexivity.
  - intros body Hb. congruence.
  - intros err' Hb. congruence.
  - intros body _. rewrite E. exists []. cbn. repeat split; auto.
  - intros err' Hb. congruence.
  - intros body _. rewrite E. exists []. cbn. repeat split; auto.
  - intros err' Hb. congruence.
  - intros body _. rewrite (trace_answered _ _ options _ _ Ha). unfold answered_trace.
    fold url. fold post.
    destruct (find _ static_order);
      [exists []; cbn; repeat split; auto | ].
    destruct (Z.eqb _ 0);
      [exists []; cbn; repeat split; auto | ].
    destruct (ReCAPTCHA.horloge r);
      [ | exists []; cbn; repeat split; auto ].
    eexists. split; [reflexivity | ]. cbn. repeat split; eauto.
Qed.

(** *** Acceptance *)

(** X5: [confirm] returns nil exactly when the request was answered and the
    answer meets every criterion: success flag set, no code list, hostname
    and app package as wanted, under V3 the action as wanted and the score
    not below the effective threshold, and for a nonzero [ResponseTime] a
    clock whose reading does not exceed it.  Nothing else is accepted, by
    any engine. *)
Theorem accepted_iff r recaptcha options :
  run (confirm json_Unmarshal r recaptcha options) = Returned nil
  <-> exists resultBody result,
      answered json_Unmarshal r recaptcha resultBody result
      /\ (r.(ReCAPTCHA.Version) = V3 ->
          option_met options.(VerifyOption.Action) result.(reCHAPTCHAResponse.Action)
          /\ SFltb result.(reCHAPTCHAResponse.Score) (Policy.effectiveThreshold options)
             = false)
      /\ result.(reCHAPTCHAResponse.ErrorCodes) = None
      /\ result.(reCHAPTCHAResponse.Success) = true
      /\ option_met options.(VerifyOption.Hostname) result.(reCHAPTCHAResponse.Hostname)
      /\ option_met options.(VerifyOption.ApkPackageName)
                    result.(reCHAPTCHAResponse.ApkPackageName)
      /\ (options.(VerifyOption.ResponseTime) <> 0 ->
          exists h,
            r.(ReCAPTCHA.horloge) = Some h
            /\ Since h result.(reCHAPTCHAResponse.ChallengeTS)
               <= options.(VerifyOption.ResponseTime)).
Proof.
  split.
  - intros Hrun.
    destruct (ReCAPTCHA.client r) as [c | ] eqn:Hc;
      [ | rewrite (confirm_nil_client _ _ _ Hc) in Hrun; discriminate Hrun].
    destruct (confirm_transport r recaptcha options c Hc)
      as [(err & _ & E) | [(err & _ & E) | [(b & err & _ & _ & E) | (b & res & _ & Ha)]]];
      try (rewrite E in Hrun; discriminate Hrun).
    exists b, res. split; [exact Ha | ].
    rewrite (run_confirm_answered _ _ _ _ _ _ 0 Ha) in Hrun.
    destruct (find _ static_order) eqn:F; [discriminate Hrun | ].
    pose proof (find_none _ _ F) as N.
    assert (NA := N Policy.Action ltac:(cbn; tauto)).
    assert (NS := N Policy.Score ltac:(cbn; tauto)).
    assert (NE := N Policy.ErrorCodes ltac:(cbn; tauto)).
    assert (NU := N Policy.Success ltac:(cbn; tauto)).
    assert (NH := N Policy.Hostname ltac:(cbn; tauto)).
    assert (NP := N Policy.ApkPackageName ltac:(cbn; tauto)).
    cbn [Policy.fails] in NA, NS, NE, NU, NH, NP.
    split; [ | split; [ | split; [ | split; [ | split]]]].
    + intros Hv. rewrite Hv in NA, NS. change (Z.eqb V3 V3) with true in NA, NS.
      cbn [andb] in NA, NS. split; [apply option_met_iff; exact NA | exact NS].
    + destruct (reCHAPTCHAResponse.ErrorCodes res); [discriminate NE | reflexivity].
    + destruct (reCHAPTCHAResponse.Success res); [reflexivity | discriminate NU].
    + apply option_met_iff. exact NH.
    + apply option_met_iff. exact NP.
    + intros Hrt. apply Z.eqb_neq in Hrt. rewrite Hrt in Hrun.
      destruct (ReCAPTCHA.horloge r) as [h | ]; [ | discriminate Hrun].
      exists h. split; [reflexivity | ].
      cbv zeta in Hrun.
      destruct (Z.ltb_spec (VerifyOption.ResponseTime options)
                           (Since h (reCHAPTCHAResponse.ChallengeTS res)));
        [discriminate Hrun | assumption].
  - intros (b & res & Ha & Hgated & Hcodes & Hsuccess & Hhost & Hapk & Htime).
    rewrite (run_confirm_answered _ _ _ _ _ _ 0 Ha).
    rewrite find_static_none.
    + destruct (Z.eqb_spec (VerifyOption.ResponseTime options) 0) as [E | E];
        [reflexivity | ].
      destruct (Htime E) as (h & -> & Hle). cbv zeta.
      destruct (Z.ltb_spec (VerifyOption.ResponseTime options)
                           (Since h (reCHAPTCHAResponse.ChallengeTS res)));
        [lia | reflexivity].
    + intros c Hin. cbn [static_order In] in Hin.
      destruct Hin as [<- | [<- | [<- | [<- | [<- | [<- | []]]]]]]; cbn [Policy.fails].
      * destruct (Z.eqb_spec (ReCAPTCHA.Version r) V3) as [Hv | Hv]; [ | reflexivity].
        cbn [andb]. apply option_met_iff. apply (Hgated Hv).
      * destruct (Z.eqb_spec (ReCAPTCHA.Version r) V3) as [Hv | Hv]; [ | reflexivity].
        cbn [andb]. apply (Hgated Hv).
      * rewrite Hcodes. reflexivity.
      * rewrite Hsuccess. reflexivity.
      * apply option_met_iff. exact Hhost.
      * apply option_met_iff. exact Hapk.
Qed.

(** X6: the clock is asked exactly when the request was answered, no check
    that needs no clock fails, [ResponseTime] is not zero and the engine has
    a clock; a rejection by an earlier check, a zero [ResponseTime] or a
    transport failure never reaches it. *)
Theorem clock_asked_iff r recaptcha options :
  consults_clock (trace (confirm json_Unmarshal r recaptcha options)) = true
  <-> exists resultBody result h,
      answered json_Unmarshal r recaptcha resultBody result
      /\ (forall c, In c static_order ->
                    Policy.fails r.(ReCAPTCHA.Version) options result 0 c = false)
      /\ options.(VerifyOption.ResponseTime) <> 0
      /\ r.(ReCAPTCHA.horloge) = Some h.
Proof.
  split.
  - intros Ht.
    destruct (ReCAPTCHA.client r) as [c | ] eqn:Hc;
      [ | rewrite (confirm_nil_client _ _ _ Hc) in Ht; discriminate Ht].
    destruct (confirm_transport r recaptcha options c Hc)
      as [(err & _ & E) | [(err & _ & E) | [(b & err & _ & _ & E) | (b & res & _ & Ha)]]];
      try (rewrite E in Ht; discriminate Ht).
    rewrite (trace_answered _ _ options _ _ Ha) in Ht.
    destruct (find _ static_order) eqn:F; [discriminate Ht | ].
    destruct (Z.eqb_spec (VerifyOption.ResponseTime options) 0) as [E | E];
      [discriminate Ht | ].
    destruct (ReCAPTCHA.horloge r) as [h | ]; [ | discriminate Ht].
    exists b, res, h. repeat split; try assumption.
    apply (find_none _ _ F).
  - intros (b & res & h & Ha & Hpass & Hrt & Hh).
    rewrite (trace_answered _ _ options _ _ Ha), (find_static_none _ _ _ _ Hpass), Hh.
    apply Z.eqb_neq in Hrt. rewrite Hrt. reflexivity.
Qed.

(** *** The single checks *)

(** X7: the action check comes first: on an answered request [confirm]
    returns the action rejection exactly when the engine is V3 and the
    options name an action that is not, character for character, the
    answer's; error codes, success flag and score of the answer play no
    part. *)
Theorem action_check r recaptcha options resultBody result :
  answered json_Unmarshal r recaptcha resultBody result ->
  run (confirm json_Unmarshal r recaptcha options)
  = Returned (ptrError
      {| Error.msg := "invalid response action '" ++ result.(reCHAPTCHAResponse.Action)
                      ++ "', while expecting '" ++ options.(VerifyOption.Action) ++ "'";
         Error.ErrorCodes := None;
         Error.RequestError := false;
         Error.ResponseBody := resultBody |})
  <-> r.(ReCAPTCHA.Version) = V3
      /\ ~ option_met options.(VerifyOption.Action) result.(reCHAPTCHAResponse.Action).
Proof.
  intros Ha.
  change (run (confirm json_Unmarshal r recaptcha options)
          = Returned (ptrError (Policy.rejection recaptcha options resultBody result 0
                                                 Policy.Action))
          <-> r.(ReCAPTCHA.Version) = V3
              /\ ~ option_met options.(VerifyOption.Action)
                              result.(reCHAPTCHAResponse.Action)).
  rewrite (rejection_iff_fails r recaptcha options resultBody result Policy.Action Ha);
    [ | cbn; tauto | intros c' Hr; destruct c'; cbn in Hr; lia ].
  cbn [Policy.fails]. rewrite <- andb_assoc, andb_true_iff, Z.eqb_eq.
  rewrite <- option_met_iff, not_false_iff_true. reflexivity.
Qed.

(** X8: under V3 an answer with a zero score, which is what an answer
    without a score decodes to, is rejected by the score check for every
    threshold that is zero or more, after a passed action check; the error
    says nothing of the code list the answer may carry.  Only a negative or
    NaN threshold lets such an answer through to the later checks. *)
Theorem zero_score_under_V3 r recaptcha options resultBody result s :
  answered json_Unmarshal r recaptcha resultBody result ->
  r.(ReCAPTCHA.Version) = V3 ->
  option_met options.(VerifyOption.Action) result.(reCHAPTCHAResponse.Action) ->
  result.(reCHAPTCHAResponse.Score) = S754_zero s ->
  run (confirm json_Unmarshal r recaptcha options)
  = Returned (ptrError
      {| Error.msg := "received score '" ++ fmt_f (S754_zero s)
                      ++ "', while expecting minimum '"
                      ++ fmt_f (Policy.effectiveThreshold options) ++ "'";
         Error.ErrorCodes := None;
         Error.RequestError := false;
         Error.ResponseBody := resultBody |})
  <-> SFleb GoFloat.zero options.(VerifyOption.Threshold) = true.
Proof.
  intros Ha Hv Hact Hscore.
  rewrite <- Hscore at 1.
  change (run (confirm json_Unmarshal r recaptcha options)
          = Returned (ptrError (Policy.rejection recaptcha options resultBody result 0
                                                 Policy.Score))
          <-> SFleb GoFloat.zero options.(VerifyOption.Threshold) = true).
  rewrite (rejection_iff_fails r recaptcha options resultBody result Policy.Score Ha);
    [ | cbn; tauto | ].
  - cbn [Policy.fails]. rewrite Hv. change (Z.eqb V3 V3) with true. cbn [andb].
    unfold GoFloat.gt. rewrite Hscore, zero_score_below. reflexivity.
  - intros c' Hr. destruct c'; cbn in Hr; try lia.
    apply action_passes. exact Hact.
Qed.

(** X9: once the earlier checks are passed, [confirm] returns the hostname
    rejection exactly when the options name a hostname that is not the
    answer's; the message quotes both. *)
Theorem hostname_check r recaptcha options resultBody result :
  answered json_Unmarshal r recaptcha resultBody result ->
  (forall c, (rank c < rank Policy.Hostname)%nat ->
             Policy.fails r.(ReCAPTCHA.Version) options result 0 c = false) ->
  run (confirm json_Unmarshal r recaptcha options)
  = Returned (ptrError
      {| Error.msg := "invalid response hostname '" ++ result.(reCHAPTCHAResponse.Hostname)
                      ++ "', while expecting '" ++ options.(VerifyOption.Hostname) ++ "'";
         Error.ErrorCodes := None;
         Error.RequestError := false;
         Error.ResponseBody := resultBody |})
  <-> ~ option_met options.(VerifyOption.Hostname) result.(reCHAPTCHAResponse.Hostname).
Proof.
  intros Ha Hbefore.
  change (run (confirm json_Unmarshal r recaptcha options)
          = Returned (ptrError (Policy.rejection recaptcha options resultBody result 0
                                                 Policy.Hostname))
          <-> ~ option_met options.(VerifyOption.Hostname)
                           result.(reCHAPTCHAResponse.Hostname)).
  rewrite (rejection_iff_fails r recaptcha options resultBody result Policy.Hostname Ha);
    [ | cbn; tauto | exact Hbefore ].
  cbn [Policy.fails]. rewrite <- option_met_iff, not_false_iff_true. reflexivity.
Qed.

(** X10: once the earlier checks, the hostname check among them, are passed,
    [confirm] returns the app-package rejection exactly when the options name
    a package that is not the answer's. *)
Theorem apk_package_name_check r recaptcha options resultBody result :
  answered json_Unmarshal r recaptcha resultBody result ->
  (forall c, (rank c < rank Policy.ApkPackageName)%nat ->
             Policy.fails r.(ReCAPTCHA.Version) options result 0 c = false) ->
  run (confirm json_Unmarshal r recaptcha options)
  = Returned (ptrError
      {| Error.msg := "invalid response ApkPackageName '"
                      ++ result.(reCHAPTCHAResponse.ApkPackageName)
                      ++ "', while expecting '" ++ options.(VerifyOption.ApkPackageName)
                      ++ "'";
         Error.ErrorCodes := None;
         Error.RequestError := false;
         Error.ResponseBody := resultBody |})
  <-> ~ option_met options.(VerifyOption.ApkPackageName)
                   result.(reCHAPTCHAResponse.ApkPackageName).
Proof.
  intros Ha Hbefore.
  change (run (confirm json_Unmarshal r recaptcha options)
          = Returned (ptrError (Policy.rejection recaptcha options resultBody result 0
                                                 Policy.ApkPackageName))
          <-> ~ option_met options.(VerifyOption.ApkPackageName)
                           result.(reCHAPTCHAResponse.ApkPackageName)).
  rewrite (rejection_iff_fails r recaptcha options resultBody result Policy.ApkPackageName
                               Ha);
    [ | cbn; tauto | exact Hbefore ].
  cbn [Policy.fails]. rewrite <- option_met_iff, not_false_iff_true. reflexivity.
Qed.

(** *** The errors and their texts *)

(** Every [*Error] of [confirm] has one of the texts of [error_text], with
    its class. *)
Lemma confirm_error_text r recaptcha options e :
  run (confirm json_Unmarshal r recaptcha options) = Returned (ptrError e) ->
  error_text (Error_Error e) e.(Error.RequestError).
Proof.
  intros Hrun.
  destruct (ReCAPTCHA.client r) as [c | ] eqn:Hc;
    [ | rewrite (confirm_nil_client _ _ _ Hc) in Hrun; discriminate Hrun].
  destruct (confirm_transport r recaptcha options c Hc)
    as [(err & _ & E) | [(err & _ & E) | [(b & err & _ & _ & E) | (b & res & _ & Ha)]]];
    try (rewrite E in Hrun; injection Hrun as <-; constructor).
  destruct (confirm_rejection _ _ _ _ _ _ _ Ha Hrun) as (k & el & -> & _).
  apply text_rejection.
Qed.

End Coverage.

(** The text tells the class: no text of a request error is the text of a
    rejection. *)
Lemma error_text_class (m : string) (b b' : bool) :
  error_text m b -> error_text m b' -> b = b'.
Proof.
  intros H H'.
  destruct H as [err | err | err | q o res el c];
    inversion H' as [err' E | err' E | err' E | q' o' res' el' c' E]; subst;
      try reflexivity; exfalso;
      first [ destruct c | destruct c' ]; cbn in E;
      repeat match goal with
             | H : context [if ?x then _ else _] |- _ => destruct x; cbn in H
             end;
      discriminate E.
Qed.

Section Coverage2.

Variable json_Unmarshal : string -> string + reCHAPTCHAResponse.t.
Variable json_Unmarshal' : string -> string + reCHAPTCHAResponse.t.

(** X11: the text of [Error()] tells a request error from a rejection: two
    errors returned by [confirm], for whatever engines, requests, options and
    answers, that have the same text have the same [RequestError]. *)
Theorem error_text_tells_class r recaptcha options e r' recaptcha' options' e' :
  run (confirm json_Unmarshal r recaptcha options) = Returned (ptrError e) ->
  run (confirm json_Unmarshal' r' recaptcha' options') = Returned (ptrError e') ->
  Error_Error e = Error_Error e' ->
  e.(Error.RequestError) = e'.(Error.RequestError).
Proof.
  intros H H' Heq.
  apply confirm_error_text in H. apply confirm_error_text in H'.
  rewrite Heq in H. exact (error_text_class _ _ _ H H').
Qed.

(** [&http.Client{Timeout: timeout}], the client of [net/http]. *)
Variable http_Client : Duration -> netClient.

(** [time.Since], the wall clock. *)
Variable time_Since : Time -> Duration.

(** X12: an engine that [NewReCAPTCHA] returned without error never panics:
    both entry points return, nil or an [*Error]; the secret it was built
    with is not empty and is the one posted, to the fixed endpoint. *)
Theorem constructed_engine_returns secret version timeout r challengeResponse options :
  snd (NewReCAPTCHA http_Client time_Since secret version timeout) = Return (r, nil) ->
  secret <> ""
  /\ (exists err,
         run (VerifyWithOptions json_Unmarshal r challengeResponse options) = Returned err
         /\ (err = nil \/ exists e, err = ptrError e))
  /\ exists rest,
      trace (VerifyWithOptions json_Unmarshal r challengeResponse options)
      = EvPostForm reCAPTCHALink
                   (request_form
                      {| reCHAPTCHARequest.Secret := secret;
                         reCHAPTCHARequest.Response := challengeResponse;
                         reCHAPTCHARequest.RemoteIP := options.(VerifyOption.RemoteIP) |})
          :: rest.
Proof.
  unfold NewReCAPTCHA.
  destruct (String.eqb_spec secret "") as [E | E]; [discriminate | ].
  intros [= <-]. split; [exact E | ].
  rewrite VerifyWithOptions_confirm.
  set (r := {| ReCAPTCHA.client := Some (http_Client timeout);
               ReCAPTCHA.Secret := secret;
               ReCAPTCHA.ReCAPTCHALink := reCAPTCHALink;
               ReCAPTCHA.Version := version;
               ReCAPTCHA.Timeout := timeout;
               ReCAPTCHA.horloge := Some (realClock time_Since) |}).
  set (request := verify_request r challengeResponse (VerifyOption.RemoteIP options)).
  change {| reCHAPTCHARequest.Secret := secret;
            reCHAPTCHARequest.Response := challengeResponse;
            reCHAPTCHARequest.RemoteIP := options.(VerifyOption.RemoteIP) |}
    with request.
  destruct (confirm_transport json_Unmarshal r request options (http_Client timeout) eq_refl)
    as [(err & _ & H) | [(err & _ & H) | [(b & err & _ & _ & H) | (b & res & _ & Ha)]]];
    try (rewrite H; split; [eexists; split; [reflexivity | right; eexists; reflexivity]
                           | eexists; reflexivity]).
  rewrite (confirm_answered _ _ _ options _ _ 0 Ha).
  destruct (find _ static_order);
    [split; [eexists; split; [reflexivity | right; eexists; reflexivity]
            | eexists; reflexivity] | ].
  destruct (Z.eqb _ 0);
    [split; [eexists; split; [reflexivity | left; reflexivity] | eexists; reflexivity] | ].
  cbn [ReCAPTCHA.horloge r]. cbv zeta.
  destruct (Z.ltb _ _);
    (split; [eexists; split; [reflexivity | auto; right; eexists; reflexivity]
            | eexists; reflexivity]).
Qed.

(** X13: an engine that [NewReCAPTCHA] returned measures the response time
    with [time.Since]: on an answered request that passes the other checks,
    with a nonzero [ResponseTime], it asks the wall clock once for the time
    since the challenge timestamp and rejects exactly when that time exceeds
    [ResponseTime]. *)
Theorem constructed_engine_uses_wall_clock
        secret version timeout r recaptcha options resultBody result :
  snd (NewReCAPTCHA http_Client time_Since secret version timeout) = Return (r, nil) ->
  answered json_Unmarshal r recaptcha resultBody result ->
  (forall c, In c static_order ->
             Policy.fails r.(ReCAPTCHA.Version) options result 0 c = false) ->
  options.(VerifyOption.ResponseTime) <> 0 ->
  let ts := result.(reCHAPTCHAResponse.ChallengeTS) in
  trace (confirm json_Unmarshal r recaptcha options) = answered_trace r recaptcha [EvSince ts]
  /\ (options.(VerifyOption.ResponseTime) < time_Since ts
      <-> exists e,
        run (confirm json_Unmarshal r recaptcha options) = Returned (ptrError e)
        /\ Error_Error e
           = "time spent in resolving challenge '" ++ fmt_f (Seconds (time_Since ts))
             ++ "s', while expecting maximum '"
             ++ fmt_f (Seconds options.(VerifyOption.ResponseTime)) ++ "s'")
  /\ (time_Since ts <= options.(VerifyOption.ResponseTime)
      <-> run (confirm json_Unmarshal r recaptcha options) = Returned nil).
Proof.
  unfold NewReCAPTCHA.
  destruct (String.eqb_spec secret "") as [E | E]; [discriminate | ].
  intros [= <-] Ha Hpass Hrt.
  rewrite (confirm_answered _ _ _ options _ _ 0 Ha), (find_static_none _ _ _ _ Hpass).
  apply Z.eqb_neq in Hrt. rewrite Hrt.
  cbn [ReCAPTCHA.horloge realClock Since]. cbv zeta.
  set (ts := reCHAPTCHAResponse.ChallengeTS result).
  split; [reflexivity | ].
  destruct (Z.ltb_spec (VerifyOption.ResponseTime options) (time_Since ts)) as [Hlt | Hge];
    split; split.
  - intros _. eexists. split; reflexivity.
  - intros _. exact Hlt.
  - intros Hle. lia.
  - discriminate.
  - intros Hlt. lia.
  - intros (e & He & _). discriminate He.
  - reflexivity.
  - intros _. exact Hge.
Qed.

(** X14: among thresholds other than zero the score check is monotone: when
    the decoder yields proper finite scores, a request accepted with a
    threshold is accepted with every lower threshold that is not zero, all
    else equal.  (Zero stands for the default and is no part of this.) *)
Theorem lower_threshold_still_accepts r recaptcha options t t' :
  (forall resultBody result,
      json_Unmarshal resultBody = inr result ->
      valid32 result.(reCHAPTCHAResponse.Score) = true
      /\ is_finite result.(reCHAPTCHAResponse.Score) = true) ->
  valid32 t = true -> is_finite t = true ->
  valid32 t' = true -> is_finite t' = true ->
  GoFloat.neq t GoFloat.zero = true ->
  GoFloat.neq t' GoFloat.zero = true ->
  scaled32 t' <= scaled32 t ->
  run (confirm json_Unmarshal r recaptcha (with_Threshold t options)) = Returned nil ->
  run (confirm json_Unmarshal r recaptcha (with_Threshold t' options)) = Returned nil.
Proof.
  intros Hdec Vt Ft Vt' Ft' Nt Nt' Hle Hrun.
  destruct (ReCAPTCHA.client r) as [c | ] eqn:Hc;
    [ | rewrite (confirm_nil_client _ _ _ _ Hc) in Hrun; discriminate Hrun].
  destruct (confirm_transport json_Unmarshal r recaptcha (with_Threshold t options) c Hc)
    as [(err & _ & E) | [(err & _ & E) | [(b & err & _ & _ & E) | (b & res & _ & Ha)]]];
    try (rewrite E in Hrun; discriminate Hrun).
  rewrite (run_confirm_answered _ _ _ _ _ _ 0 Ha) in Hrun.
  rewrite (run_confirm_answered _ _ _ _ _ _ 0 Ha).
  destruct (find _ static_order) eqn:F in Hrun; [discriminate Hrun | ].
  pose proof (find_none _ _ F) as N.
  rewrite find_static_none; [exact Hrun | ].
  intros k Hin. specialize (N k Hin).
  destruct k; try exact N.
  cbn [Policy.fails] in *.
  destruct (Z.eqb (ReCAPTCHA.Version r) V3); [ | reflexivity].
  cbn [andb] in *.
  destruct Ha as (c0 & _ & _ & Hj).
  destruct (Hdec _ _ Hj) as [Vs Fs].
  unfold Policy.effectiveThreshold, GoFloat.gt in *.
  cbn [with_Threshold VerifyOption.Threshold] in *.
  rewrite Nt in N. rewrite Nt'.
  rewrite (SFltb_scaled32 _ _ Vs Vt Fs Ft) in N.
  rewrite (SFltb_scaled32 _ _ Vs Vt' Fs Ft').
  apply Z.ltb_ge in N. apply Z.ltb_ge. lia.
Qed.

End Coverage2.

(** ** The further properties at the fixtures *)

Lemma posted_form_witness :
  exists rest,
    trace (VerifyWithOptions Fixtures.test_Unmarshal MoreFixtures.success_engine "mycode"
                             (with_RemoteIP "123.123.123.123" VerifyOption.zero))
    = EvPostForm "" [("secret", [""]); ("remoteip", ["123.123.123.123"]);
                     ("response", ["mycode"])] :: rest
    /\ count_posts rest = 0%nat.
Proof.
  exact (posted_form Fixtures.test_Unmarshal MoreFixtures.success_engine "mycode"
                     (with_RemoteIP "123.123.123.123" VerifyOption.zero)
                     Fixtures.mockSuccessClientNoOptions eq_refl).
Defined.

Lemma body_read_and_closed_once_witness :
  exists mid,
    trace (confirm Fixtures.test_Unmarshal Fixtures.over_time_engine Fixtures.mycode
                   (Fixtures.with_ResponseTime (5 * Second)))
    = (EvPostForm "" [("secret", [""]); ("response", ["mycode"])]
         :: EvReadAll :: mid ++ [EvClose])%list
    /\ (mid = [] \/ exists ts, mid = [EvSince ts])
    /\ count_reads (trace (confirm Fixtures.test_Unmarshal Fixtures.over_time_engine
                                   Fixtures.mycode
                                   (Fixtures.with_ResponseTime (5 * Second)))) = 1%nat
    /\ count_closes (trace (confirm Fixtures.test_Unmarshal Fixtures.over_time_engine
                                    Fixtures.mycode
                                    (Fixtures.with_ResponseTime (5 * Second)))) = 1%nat
    /\ Nat.le (count_clock (trace (confirm Fixtures.test_Unmarshal Fixtures.over_time_engine
                                           Fixtures.mycode
                                           (Fixtures.with_ResponseTime (5 * Second))))) 1.
Proof.
  exact (proj2 (body_read_and_closed_once Fixtures.test_Unmarshal Fixtures.over_time_engine
                  Fixtures.mycode (Fixtures.with_ResponseTime (5 * Second))
                  Fixtures.mockSuccessClientNoOptions eq_refl)
               (ReadsAll Fixtures.success_body) eq_refl).
Defined.

Lemma action_check_witness :
  answered Fixtures.test_Unmarshal Fixtures.low_score_engine Fixtures.mycode
           Fixtures.low_score_body Fixtures.low_score_result
  /\ run (confirm Fixtures.test_Unmarshal Fixtures.low_score_engine Fixtures.mycode
                  (with_Action "homepage" VerifyOption.zero))
     = Returned (ptrError
         {| Error.msg := "invalid response action '', while expecting 'homepage'";
            Error.ErrorCodes := None;
            Error.RequestError := false;
            Error.ResponseBody := Fixtures.low_score_body |}).
Proof.
  assert (Ha : answered Fixtures.test_Unmarshal Fixtures.low_score_engine Fixtures.mycode
                        Fixtures.low_score_body Fixtures.low_score_result)
    by fixture_answered.
  split; [exact Ha | ].
  apply (proj2 (action_check Fixtures.test_Unmarshal Fixtures.low_score_engine Fixtures.mycode
                             (with_Action "homepage" VerifyOption.zero)
                             Fixtures.low_score_body Fixtures.low_score_result Ha)).
  split; [reflexivity | ]. intros [H | H]; discriminate H.
Defined.

Lemma zero_score_under_V3_witness :
  answered Fixtures.test_Unmarshal MoreFixtures.failed_v3_engine Fixtures.mycode
           Fixtures.failed_body Fixtures.failed_result
  /\ Fixtures.failed_result.(reCHAPTCHAResponse.ErrorCodes)
     = Some ["invalid-input-response"; "bad-request"]
  /\ run (confirm Fixtures.test_Unmarshal MoreFixtures.failed_v3_engine Fixtures.mycode
                  VerifyOption.zero)
     = Returned (ptrError
         {| Error.msg := "received score '0.000000', while expecting minimum '0.500000'";
            Error.ErrorCodes := None;
            Error.RequestError := false;
            Error.ResponseBody := Fixtures.failed_body |}).
Proof.
  assert (Ha : answered Fixtures.test_Unmarshal MoreFixtures.failed_v3_engine Fixtures.mycode
                        Fixtures.failed_body Fixtures.failed_result)
    by fixture_answered.
  split; [exact Ha | split; [reflexivity | ]].
  apply (proj2 (zero_score_under_V3 Fixtures.test_Unmarshal MoreFixtures.failed_v3_engine
                  Fixtures.mycode VerifyOption.zero Fixtures.failed_body
                  Fixtures.failed_result false Ha eq_refl (or_introl eq_refl) eq_refl)).
  reflexivity.
Defined.

Lemma hostname_check_witness :
  answered Fixtures.test_Unmarshal MoreFixtures.success_engine Fixtures.mycode
           Fixtures.success_body Fixtures.success_result
  /\ run (confirm Fixtures.test_Unmarshal MoreFixtures.success_engine Fixtures.mycode
                  (with_Hostname "other.com" VerifyOption.zero))
     = Returned (ptrError
         {| Error.msg := "invalid response hostname 'test.com', while expecting 'other.com'";
            Error.ErrorCodes := None;
            Error.RequestError := false;
            Error.ResponseBody := Fixtures.success_body |}).
Proof.
  assert (Ha : answered Fixtures.test_Unmarshal MoreFixtures.success_engine Fixtures.mycode
                        Fixtures.success_body Fixtures.success_result)
    by fixture_answered.
  split; [exact Ha | ].
  assert (Hbefore : forall c, (rank c < rank Policy.Hostname)%nat ->
                              Policy.fails MoreFixtures.success_engine.(ReCAPTCHA.Version)
                                           (with_Hostname "other.com" VerifyOption.zero)
                                           Fixtures.success_result 0 c = false).
  { intros c Hr. destruct c; try reflexivity; cbn in Hr; lia. }
  apply (proj2 (hostname_check Fixtures.test_Unmarshal MoreFixtures.success_engine
                  Fixtures.mycode (with_Hostname "other.com" VerifyOption.zero)
                  Fixtures.success_body Fixtures.success_result Ha Hbefore)).
  intros [H | H]; discriminate H.
Defined.

Lemma apk_package_name_check_witness :
  answered Fixtures.test_Unmarshal MoreFixtures.success_engine Fixtures.mycode
           Fixtures.success_body Fixtures.success_result
  /\ run (confirm Fixtures.test_Unmarshal MoreFixtures.success_engine Fixtures.mycode
                  (with_ApkPackageName "com.test.app" VerifyOption.zero))
     = Returned (ptrError
         {| Error.msg := "invalid response ApkPackageName '', while expecting 'com.test.app'";
            Error.ErrorCodes := None;
            Error.RequestError := false;
            Error.ResponseBody := Fixtures.success_body |}).
Proof.
  assert (Ha : answered Fixtures.test_Unmarshal MoreFixtures.success_engine Fixtures.mycode
                        Fixtures.success_body Fixtures.success_result)
    by fixture_answered.
  split; [exact Ha | ].
  assert (Hbefore : forall c, (rank c < rank Policy.ApkPackageName)%nat ->
                              Policy.fails MoreFixtures.success_engine.(ReCAPTCHA.Version)
                                           (with_ApkPackageName "com.test.app"
                                                                VerifyOption.zero)
                                           Fixtures.success_result 0 c = false).
  { intros c Hr. destruct c; try reflexivity; cbn in Hr; lia. }
  apply (proj2 (apk_package_name_check Fixtures.test_Unmarshal MoreFixtures.success_engine
                  Fixtures.mycode (with_ApkPackageName "com.test.app" VerifyOption.zero)
                  Fixtures.success_body Fixtures.success_result Ha Hbefore)).
  intros [H | H]; discriminate H.
Defined.

Lemma error_text_tells_class_witness :
  Error.RequestError
    {| Error.msg := "invalid challenge solution";
       Error.ErrorCodes := None;
       Error.RequestError := false;
       Error.ResponseBody := Fixtures.invalid_solution_body |}
  = Error.RequestError
      {| Error.msg := "invalid challenge solution";
         Error.ErrorCodes := None;
         Error.RequestError := false;
         Error.ResponseBody := Fixtures.invalid_solution_body |}.
Proof.
  apply (error_text_tells_class Fixtures.test_Unmarshal Fixtures.test_Unmarshal
           Fixtures.invalid_solution_engine Fixtures.mycode VerifyOption.zero _
           Fixtures.invalid_solution_engine Fixtures.mycode
           (with_Hostname "other.com" VerifyOption.zero) _);
    vm_compute; reflexivity.
Defined.

Lemma constructed_engine_returns_witness :
  "my secret" <> ""
  /\ (exists err,
         run (VerifyWithOptions Fixtures.test_Unmarshal
                {| ReCAPTCHA.client := Some (MoreFixtures.http_success (10 * Second));
                   ReCAPTCHA.Secret := "my secret";
                   ReCAPTCHA.ReCAPTCHALink := reCAPTCHALink;
                   ReCAPTCHA.Version := V2;
                   ReCAPTCHA.Timeout := 10 * Second;
                   ReCAPTCHA.horloge := Some (realClock MoreFixtures.eight_seconds_later) |}
                "mycode" (Fixtures.with_ResponseTime (5 * Second)))
         = Returned err
         /\ (err = nil \/ exists e, err = ptrError e))
  /\ exists rest,
      trace (VerifyWithOptions Fixtures.test_Unmarshal
               {| ReCAPTCHA.client := Some (MoreFixtures.http_success (10 * Second));
                  ReCAPTCHA.Secret := "my secret";
                  ReCAPTCHA.ReCAPTCHALink := reCAPTCHALink;
                  ReCAPTCHA.Version := V2;
                  ReCAPTCHA.Timeout := 10 * Second;
                  ReCAPTCHA.horloge := Some (realClock MoreFixtures.eight_seconds_later) |}
               "mycode" (Fixtures.with_ResponseTime (5 * Second)))
      = EvPostForm reCAPTCHALink [("secret", ["my secret"]); ("response", ["mycode"])]
          :: rest.
Proof.
  exact (constructed_engine_returns Fixtures.test_Unmarshal MoreFixtures.http_success
           MoreFixtures.eight_seconds_later "my secret" V2 (10 * Second) _ "mycode"
           (Fixtures.with_ResponseTime (5 * Second)) eq_refl).
Defined.

Lemma constructed_engine_uses_wall_clock_witness :
  answered Fixtures.test_Unmarshal MoreFixtures.constructed_engine Fixtures.mycode
           Fixtures.success_body Fixtures.success_result
  /\ exists e,
      run (confirm Fixtures.test_Unmarshal MoreFixtures.constructed_engine Fixtures.mycode
                   (Fixtures.with_ResponseTime (5 * Second)))
      = Returned (ptrError e)
      /\ Error_Error e
         = "time spent in resolving challenge '8.000000s', while expecting maximum '5.000000s'".
Proof.
  assert (Ha : answered Fixtures.test_Unmarshal MoreFixtures.constructed_engine
                        Fixtures.mycode Fixtures.success_body Fixtures.success_result)
    by fixture_answered.
  split; [exact Ha | ].
  assert (Hpass : forall c, In c static_order ->
                            Policy.fails MoreFixtures.constructed_engine.(ReCAPTCHA.Version)
                                         (Fixtures.with_ResponseTime (5 * Second))
                                         Fixtures.success_result 0 c = false).
  { intros c Hin. destruct c; reflexivity. }
  assert (Hrt : (Fixtures.with_ResponseTime (5 * Second)).(VerifyOption.ResponseTime) <> 0)
    by discriminate.
  destruct (constructed_engine_uses_wall_clock Fixtures.test_Unmarshal
              MoreFixtures.http_success MoreFixtures.eight_seconds_later
              "my secret" V2 (10 * Second) MoreFixtures.constructed_engine Fixtures.mycode
              (Fixtures.with_ResponseTime (5 * Second)) Fixtures.success_body
              Fixtures.success_result eq_refl Ha Hpass Hrt) as (_ & Hover & _).
  exact (proj1 Hover eq_refl).
Defined.

Lemma lower_threshold_still_accepts_witness :
  scaled32 (float32_of_ratio 23 100) <= scaled32 (float32_of_ratio 6 10)
  /\ run (confirm Fixtures.test_Unmarshal MoreFixtures.high_score_engine Fixtures.mycode
                  (with_Threshold (float32_of_ratio 6 10) VerifyOption.zero))
     = Returned nil
  /\ run (confirm Fixtures.test_Unmarshal MoreFixtures.high_score_engine Fixtures.mycode
                  (with_Threshold (float32_of_ratio 23 100) VerifyOption.zero))
     = Returned nil.
Proof.
  assert (Hle : scaled32 (float32_of_ratio 23 100) <= scaled32 (float32_of_ratio 6 10))
    by (vm_compute; discriminate).
  assert (Hrun : run (confirm Fixtures.test_Unmarshal MoreFixtures.high_score_engine
                              Fixtures.mycode
                              (with_Threshold (float32_of_ratio 6 10) VerifyOption.zero))
                 = Returned nil)
    by (vm_compute; reflexivity).
  assert (Hdec : forall resultBody result,
             Fixtures.test_Unmarshal resultBody = inr result ->
             valid32 result.(reCHAPTCHAResponse.Score) = true
             /\ is_finite result.(reCHAPTCHAResponse.Score) = true).
  { intros resultBody result. unfold Fixtures.test_Unmarshal. cbn [find fst snd].
    repeat match goal with
           | |- context [String.eqb ?known resultBody] =>
             destruct (String.eqb known resultBody);
               [intros [= <-]; split; vm_compute; reflexivity | ]
           end.
    discriminate. }
  split; [exact Hle | split; [exact Hrun | ]].
  exact (lower_threshold_still_accepts Fixtures.test_Unmarshal
           MoreFixtures.high_score_engine Fixtures.mycode VerifyOption.zero
           (float32_of_ratio 6 10) (float32_of_ratio 23 100) Hdec
           eq_refl eq_refl eq_refl eq_refl eq_refl eq_refl Hle Hrun).
Defined.
